(** * serverless-athena-plugin: the plugin of [index.js], embedded and verified

    The plugin creates and drops Athena tables around a Serverless deploy.
    Its methods are promise chains over three collaborators: the Athena
    client ([startQueryExecution], [getQueryExecution]), the file system
    ([readFile]) and the framework's logger ([serverless.cli.log]).

    The embedding is a state-and-trace monad: a method takes the state of
    the remote service and returns how its promise completes, the events it
    caused in the order they happened, and the state of the service
    afterwards.  The service is any pair of transition functions; a
    scripted one serves for the examples.  The poll loop of
    [waitForAthenaQuery] has no bound in the source; here it takes the
    largest number of status checks it may make and completes as
    [OutOfFuel] beyond it.

    Of JavaScript and bluebird the file has what the methods use:
    truthiness of a field, template literals, [String.prototype.replace]
    with a string pattern, [Promise.all], and [Promise.map] under a
    concurrency of one.

    Contents: the model ([Js], the data, the monad, the methods, the
    scripted service), then the properties: strings, the poller,
    validation, one table, batches, substitutions, hooks. *)

From Stdlib Require Import String Ascii List Bool Arith Lia Permutation.
Import ListNotations.
Open Scope string_scope.

(** ** JavaScript values and strings *)

Module Js.

(** A configuration field that holds text: [None] is [undefined]. *)
Definition field := option string.

(** Truthiness of such a field: [undefined] and the empty string are falsy. *)
Definition truthy (v : field) : bool :=
  match v with
  | None => false
  | Some s => negb (s =? "")
  end.

(** A field inside a template literal: [`${undefined}`] is ["undefined"]. *)
Definition tmpl (v : field) : string :=
  match v with
  | None => "undefined"
  | Some s => s
  end.

(** An object read as a map: its own entries in [Object.entries] order. *)
Definition object (A : Type) := list (string * A).

Definition Object_entries {A : Type} (o : object A) : list (string * A) := o.

Definition Object_keys {A : Type} (o : object A) : list string := map fst o.

(** The value of the own entry under [key], if there is one: what
    [o[key]] gives for a key of [Object.keys(o)]. *)
Fixpoint get {A : Type} (o : object A) (key : string) : option A :=
  match o with
  | [] => None
  | (k, v) :: rest => if k =? key then Some v else get rest key
  end.

(** The names of the members of [Object.prototype], which a plain object
    inherits. *)
Definition prototype_keys : list string :=
  ["constructor"; "__defineGetter__"; "__defineSetter__"; "hasOwnProperty";
   "__lookupGetter__"; "__lookupSetter__"; "isPrototypeOf";
   "propertyIsEnumerable"; "toString"; "valueOf"; "__proto__";
   "toLocaleString"].

(** What is inherited under such a name: [Object.prototype] itself under
    [__proto__], the function [Object] under [constructor], and under the
    other names the built-in function of that name. *)
Inductive inherited : Type :=
| ProtoObject
| Builtin (name : string).

Definition inherit (key : string) : option inherited :=
  if existsb (String.eqb key) prototype_keys then
    Some (if key =? "__proto__" then ProtoObject
          else if key =? "constructor" then Builtin "Object"
          else Builtin key)
  else None.

(** What [o[key]] finds on a plain object. *)
Inductive member (A : Type) : Type :=
| Own (a : A)
| Inherited (i : inherited).

Arguments Own {A} a.
Arguments Inherited {A} i.

(** [o[key]] on a plain object: the own entry, else what the object
    inherits under that name, else [undefined]. *)
Definition lookup {A : Type} (o : object A) (key : string) : option (member A) :=
  match get o key with
  | Some a => Some (Own a)
  | None =>
      match inherit key with
      | Some i => Some (Inherited i)
      | None => None
      end
  end.

(** What was found, inside a template literal: an object is
    [[object Object]] and a built-in function is printed with its name. *)
Definition tmpl_member {A : Type} (v : option (member A)) : string :=
  match v with
  | None => "undefined"
  | Some (Own _) => "[object Object]"
  | Some (Inherited ProtoObject) => "[object Object]"
  | Some (Inherited (Builtin name)) =>
      "function " ++ name ++ "() { [native code] }"
  end.

(** The text after the first [n] characters. *)
Fixpoint drop (n : nat) (s : string) : string :=
  match n, s with
  | O, _ => s
  | S _, EmptyString => EmptyString
  | S n', String _ s' => drop n' s'
  end.

(** The leftmost occurrence of [pat] in [s]: the text before it and the
    text after it. *)
Fixpoint split_first (pat s : string) : option (string * string) :=
  if prefix pat s then Some ("", drop (String.length pat) s)
  else match s with
       | EmptyString => None
       | String c s' =>
           match split_first pat s' with
           | Some (before, after) => Some (String c before, after)
           | None => None
           end
       end.

(** [GetSubstitution] of ECMAScript for a string pattern (no captures):
    in the replacement text [$$] stands for a dollar, [$&] for the match,
    [$`] for the text before it and [$'] for the text after it; any other
    dollar stays. *)
Fixpoint GetSubstitution (matched before after template : string) : string :=
  match template with
  | EmptyString => EmptyString
  | String c rest =>
      if Ascii.eqb c "$" then
        match rest with
        | EmptyString => String c EmptyString
        | String d rest' =>
            if Ascii.eqb d "$" then
              String "$" (GetSubstitution matched before after rest')
            else if Ascii.eqb d "&" then
              matched ++ GetSubstitution matched before after rest'
            else if Ascii.eqb d "`" then
              before ++ GetSubstitution matched before after rest'
            else if Ascii.eqb d "'" then
              after ++ GetSubstitution matched before after rest'
            else String c (GetSubstitution matched before after rest)
        end
      else String c (GetSubstitution matched before after rest)
  end.

(** [s.replace(pat, replacement)] with a string pattern: the leftmost
    occurrence only. *)
Definition replace (s pat replacement : string) : string :=
  match split_first pat s with
  | None => s
  | Some (before, after) =>
      before ++ GetSubstitution pat before after replacement ++ after
  end.

(** One of the characters that make a pattern after a dollar sign. *)
Definition special (d : ascii) : bool :=
  Ascii.eqb d "$" || Ascii.eqb d "&" || Ascii.eqb d "`" || Ascii.eqb d "'".

(** The text has one of the patterns [$$], [$&], [$`], [$']. *)
Fixpoint has_pattern (s : string) : bool :=
  match s with
  | EmptyString => false
  | String c s' =>
      (Ascii.eqb c "$" &&
       match s' with
       | EmptyString => false
       | String d _ => special d
       end)
      || has_pattern s'
  end.

(** [pat] occurs in [s]. *)
Definition occurs (pat s : string) : Prop :=
  exists before after, s = before ++ pat ++ after.

End Js.

(** ** Data model *)

(** An entry of [custom.athenaTables] in [serverless.yml]. *)
Record Table := mkTable {
  DDL : Js.field;
  DDLFile : Js.field;
  OutputLocation : Js.field;
  TableName : Js.field;
  DatabaseName : Js.field;
  DDLSubstitutions : option (Js.object string)
}.

(** The [params] object given to [athena.startQueryExecution]:
    [QueryExecutionContext] is set only under a truthy [DatabaseName]. *)
Record StartParams := mkParams {
  QueryString : Js.field;
  ResultConfiguration_OutputLocation : Js.field;
  QueryExecutionContext_Database : Js.field
}.

(** What a promise is rejected with, or what is thrown. *)
Inductive Err : Type :=
| ServerlessError (msg : string)  (* new this.serverless.classes.Error(msg) *)
| JsError (msg : string)          (* new Error(msg) *)
| Reason (msg : string)           (* reject(msg) with a plain string *)
| TypeError (msg : string)        (* raised by the runtime *)
| AwsError (code : string)        (* an SDK call was rejected *)
| IOError (path : string).        (* readFile was rejected *)

(** How a call completes. *)
Inductive Completion (A : Type) : Type :=
| Fulfilled (a : A)   (* a value, or a promise fulfilled with it *)
| Rejected (e : Err)  (* a rejected promise *)
| Thrown (e : Err)    (* an exception thrown before any promise exists *)
| Pending             (* a promise that nothing will ever settle *)
| OutOfFuel.          (* the bound on status checks was reached *)

Arguments Fulfilled {A} a.
Arguments Rejected {A} e.
Arguments Thrown {A} e.
Arguments Pending {A}.
Arguments OutOfFuel {A}.

(** What the plugin does to the outside, with what came back. *)
Inductive Event : Type :=
| EvLog (msg : string)
| EvStart (params : StartParams) (response : Err + string)
| EvStatus (id : string) (response : Err + string)
| EvTimeout (ms : nat)
| EvReadFile (path : string) (response : Err + string).

(** The Athena client over a service whose state is [Svc]:
    [startQueryExecution(params).promise()] gives a [QueryExecutionId] and
    [getQueryExecution({QueryExecutionId}).promise()] gives
    [QueryExecution.Status.State], unless the call is rejected. *)
Record Athena (Svc : Type) := mkAthena {
  startQueryExecution : StartParams -> Svc -> (Err + string) * Svc;
  getQueryExecution : string -> Svc -> (Err + string) * Svc
}.

Arguments startQueryExecution {Svc} _ _ _.
Arguments getQueryExecution {Svc} _ _ _.

(** The plugin object: [this.serverless.service.custom.athenaTables]
    ([None] without [custom] or without the entry) and
    [this.options.table]. *)
Record Plugin := mkPlugin {
  custom_athenaTables : option (Js.object Table);
  options_table : Js.field
}.

(** The file system behind [readFile(path, 'utf8')]. *)
Definition Files := string -> option string.

(** ** The monad of plugin methods *)

Definition M (Svc A : Type) : Type := Svc -> Completion A * list Event * Svc.

Definition ret {Svc A : Type} (a : A) : M Svc A :=
  fun s => (Fulfilled a, [], s).

Definition throw {Svc A : Type} (e : Err) : M Svc A :=
  fun s => (Thrown e, [], s).

Definition reject {Svc A : Type} (e : Err) : M Svc A :=
  fun s => (Rejected e, [], s).

Definition emit {Svc : Type} (ev : Event) : M Svc unit :=
  fun s => (Fulfilled tt, [ev], s).

(** [this.serverless.cli.log(msg)] *)
Definition log {Svc : Type} (msg : string) : M Svc unit := emit (EvLog msg).

(** A completion that is not a value, at another type (it is applied to
    no value: the branches before it take the values). *)
Definition carry {A B : Type} (c : Completion A) : Completion B :=
  match c with
  | Fulfilled _ => Pending
  | Rejected e => Rejected e
  | Thrown e => Thrown e
  | Pending => Pending
  | OutOfFuel => OutOfFuel
  end.

(** One statement after another: [m; f]. *)
Definition bind {Svc A B : Type} (m : M Svc A) (f : A -> M Svc B) : M Svc B :=
  fun s =>
    match m s with
    | (Fulfilled a, tr, s1) =>
        let '(c, tr2, s2) := f a s1 in (c, (tr ++ tr2)%list, s2)
    | (c, tr, s1) => (carry c, tr, s1)
    end.

(** What a [then] handler leaves in the derived promise: an exception
    thrown by the handler rejects it. *)
Definition settle {A : Type} (c : Completion A) : Completion A :=
  match c with
  | Thrown e => Rejected e
  | _ => c
  end.

(** [m.then(f)]: [f] runs when [m] is fulfilled; a rejection passes by. *)
Definition then_ {Svc A B : Type} (m : M Svc A) (f : A -> M Svc B) : M Svc B :=
  fun s =>
    match m s with
    | (Fulfilled a, tr, s1) =>
        let '(c, tr2, s2) := f a s1 in (settle c, (tr ++ tr2)%list, s2)
    | (c, tr, s1) => (carry c, tr, s1)
    end.

Notation "x <- m ;; k" := (bind m (fun x => k))
  (at level 61, m at next level, right associativity).
Notation "m >>- f" := (then_ m f)
  (at level 50, left associativity).

(** The remote calls among the events. *)
Definition is_remote (ev : Event) : bool :=
  match ev with
  | EvStart _ _ | EvStatus _ _ => true
  | _ => false
  end.

Definition remote_calls (tr : list Event) : list Event := filter is_remote tr.

(** The status checks among the events. *)
Definition is_status (ev : Event) : bool :=
  match ev with
  | EvStatus _ _ => true
  | _ => false
  end.

Definition checks (tr : list Event) : nat := length (filter is_status tr).

(** The submitted queries among the events. *)
Fixpoint submitted (tr : list Event) : list StartParams :=
  match tr with
  | [] => []
  | EvStart p _ :: tr' => p :: submitted tr'
  | _ :: tr' => submitted tr'
  end.

(** The delays asked of [setTimeout]. *)
Fixpoint delays (tr : list Event) : list nat :=
  match tr with
  | [] => []
  | EvTimeout ms :: tr' => ms :: delays tr'
  | _ :: tr' => delays tr'
  end.

(** ** The plugin's methods *)

(** What the handler of one status check decides. *)
Inductive Verdict : Type :=
| Resolve (id : string)
| Again (ms : nat)
| Reject (reason : string).

(** A flag with [false] as its default: [ifExists = false] in the
    parameters of [deleteAthenaTable]. *)
Definition flag (ifExists : option bool) : bool :=
  match ifExists with
  | Some b => b
  | None => false
  end.

(** What was found under a table name, read as a definition: on what is
    inherited none of the fields the plugin reads is set. *)
Definition definition_of (found : Js.member Table) : Table :=
  match found with
  | Js.Own table => table
  | Js.Inherited _ => {|
      DDL := None;
      DDLFile := None;
      OutputLocation := None;
      TableName := None;
      DatabaseName := None;
      DDLSubstitutions := None |}
  end.

Section Methods.

Variable Svc : Type.
Variable athena : Athena Svc.
Variable files : Files.
Variable this : Plugin.

(** [this.athena.startQueryExecution(params).promise()], fulfilled with
    [QueryExecutionId]. *)
Definition athena_startQueryExecution (params : StartParams) : M Svc string :=
  fun s =>
    let (r, s1) := startQueryExecution athena params s in
    match r with
    | inr id => (Fulfilled id, [EvStart params r], s1)
    | inl e => (Rejected e, [EvStart params r], s1)
    end.

(** [readFile(path, 'utf8')] *)
Definition readFile (path : string) : M Svc string :=
  fun s =>
    match files path with
    | Some text => (Fulfilled text, [EvReadFile path (inr text)], s)
    | None => (Rejected (IOError path), [EvReadFile path (inl (IOError path))], s)
    end.

Definition getAthenaTables : Js.object Table :=
  match custom_athenaTables this with
  | Some tables => tables
  | None => []
  end.

(** The [switch] of [waitForAthenaQuery] on
    [response.QueryExecution.Status.State]. *)
Definition isQueryComplete_switch (id state : string) : Verdict :=
  if state =? "SUCCEEDED" then Resolve id
  else if state =? "RUNNING" then Again 1000
  else if state =? "QUEUED" then Again 1000
  else if state =? "FAILED" then Reject ("Query status " ++ state)
  else if state =? "CANCELLED" then Reject ("Query status " ++ state)
  else Reject ("Query status " ++ state).

(** [isQueryComplete] is called once and calls itself again through
    [setTimeout]; [fuel] bounds the status checks.  When the status call is
    rejected its [then] handler does not run, so the promise of
    [waitForAthenaQuery] is neither resolved nor rejected. *)
Fixpoint waitForAthenaQuery (fuel : nat) (id : string) : M Svc string :=
  fun s =>
    match fuel with
    | O => (OutOfFuel, [], s)
    | S fuel' =>
        let (r, s1) := getQueryExecution athena id s in
        match r with
        | inl _ => (Pending, [EvStatus id r], s1)
        | inr state =>
            match isQueryComplete_switch id state with
            | Resolve v => (Fulfilled v, [EvStatus id r], s1)
            | Again ms =>
                let '(c, tr, s2) := waitForAthenaQuery fuel' id s1 in
                (c, EvStatus id r :: EvTimeout ms :: tr, s2)
            | Reject reason => (Rejected (Reason reason), [EvStatus id r], s1)
            end
        end
    end.

Definition msg_no_ddl (tableName : string) : string :=
  "Definition for Athena table " ++ tableName ++
  " must include one of a DDLFile or DDL entry.".

Definition msg_both_ddl (tableName : string) : string :=
  "Definition for Athena table " ++ tableName ++
  " must include one of a DDLFile or DDL entry, not both.".

Definition msg_no_output (tableName : string) : string :=
  "Definition for Athena table " ++ tableName ++
  " must include OutputLocation.".

Definition msg_no_name (tableName : string) : string :=
  "Definition for Athena table " ++ tableName ++
  " must include TableName to allow dropping the table on remove.".

Definition msg_no_database (tableName : string) : string :=
  "Warning: Athena table " ++ tableName ++
  " definition does not include DatabaseName; default database will be used".

Definition validateAthenaTable (tableName : string) (table : Table) : M Svc unit :=
  if negb (Js.truthy (DDLFile table)) && negb (Js.truthy (DDL table)) then
    throw (ServerlessError (msg_no_ddl tableName))
  else if Js.truthy (DDLFile table) && Js.truthy (DDL table) then
    throw (ServerlessError (msg_both_ddl tableName))
  else if negb (Js.truthy (OutputLocation table)) then
    throw (ServerlessError (msg_no_output tableName))
  else if negb (Js.truthy (TableName table)) then
    throw (ServerlessError (msg_no_name tableName))
  else
    _ <- (if negb (Js.truthy (DatabaseName table))
          then log (msg_no_database tableName)
          else ret tt) ;;
    ret tt.

(** [params.QueryExecutionContext = { Database: table.DatabaseName }] under
    [if (table.DatabaseName)]. *)
Definition context_of (table : Table) : Js.field :=
  if Js.truthy (DatabaseName table) then DatabaseName table else None.

Definition drop_query (ifExists : bool) (table : Table) : string :=
  "DROP TABLE " ++ (if ifExists then "IF EXISTS" else "") ++ " " ++
  Js.tmpl (TableName table).

(** [ifExists] is [None] when the argument is not passed. *)
Definition deleteAthenaTable (fuel : nat) (tableName : string) (table : Table)
    (ifExists : option bool) : M Svc string :=
  let ifExists := flag ifExists in
  let params := {|
    QueryString := Some (drop_query ifExists table);
    ResultConfiguration_OutputLocation := OutputLocation table;
    QueryExecutionContext_Database := context_of table |} in
  _ <- log ("Removing Athena table " ++ tableName ++ " (" ++
            Js.tmpl (TableName table) ++ ")...") ;;
  athena_startQueryExecution params
  >>- (fun QueryExecutionId => waitForAthenaQuery fuel QueryExecutionId).

(** The [reduce] over [Object.entries(table.DDLSubstitutions)]. *)
Definition substitute (substitutions : Js.object string) (ddl : string) : string :=
  fold_left
    (fun modifiedDDL replacement =>
       Js.replace modifiedDDL ("{" ++ fst replacement ++ "}") (snd replacement))
    (Js.Object_entries substitutions) ddl.

(** The two [then] steps of [createAthenaTable] that give the DDL text:
    read it, then substitute.  [ddl.replace] on [undefined] is a
    [TypeError]; after a validation that passed, the text is there. *)
Definition readDDL (table : Table) : M Svc Js.field :=
  if Js.truthy (DDLFile table) then
    text <- readFile (Js.tmpl (DDLFile table)) ;; ret (Some text)
  else ret (DDL table).

Definition substituteDDL (table : Table) (ddl : Js.field) : M Svc Js.field :=
  match DDLSubstitutions table with
  | Some substitutions =>
      match ddl, Js.Object_entries substitutions with
      | Some text, _ => ret (Some (substitute substitutions text))
      | None, [] => ret None
      | None, _ :: _ =>
          throw (TypeError "Cannot read property 'replace' of undefined")
      end
  | None => ret ddl
  end.

Definition createAthenaTable (fuel : nat) (tableName : string) (table : Table)
    : M Svc string :=
  validateAthenaTable tableName table
  >>- (fun _ => deleteAthenaTable fuel tableName table (Some true))
  >>- (fun _ => readDDL table)
  >>- (fun ddl => substituteDDL table ddl)
  >>- (fun ddl =>
         let params := {|
           QueryString := ddl;
           ResultConfiguration_OutputLocation := OutputLocation table;
           QueryExecutionContext_Database := context_of table |} in
         _ <- log ("Creating Athena table " ++ tableName ++ "...") ;;
         athena_startQueryExecution params)
  >>- (fun QueryExecutionId => waitForAthenaQuery fuel QueryExecutionId).

(** *** bluebird *)

(** [Promise.all(input)] has one parameter: what is passed after it is
    not looked at.  Entries are plain arrays, no promises, so the result is
    fulfilled with them. *)
Definition Promise_all {A B : Type} (input : list A) (_ : A -> M Svc B)
    : M Svc (list A) :=
  ret input.

(** What calling the mapper leaves in the promise of [Promise.map]: an
    exception of the mapper rejects it. *)
Definition tryCatch {A : Type} (m : M Svc A) : M Svc A :=
  fun s => let '(c, tr, s1) := m s in (settle c, tr, s1).

(** [Promise.map(input, mapper, { concurrency: 1 })].  bluebird documents
    no order for the calls of the mapper.  Its [MappingPromiseArray] walks
    the input from index 0 and hands each element to [_promiseFulfilled]:
    nothing is in flight for the first element, so the mapper is called on
    it; its promise is then in flight, the limit of one is reached, and the
    elements after it are pushed on [_queue].  Each time the promise in
    flight is fulfilled, [_drainQueue] takes an element with [queue.pop()]
    and calls the mapper on it.  A mapper that throws, or whose promise is
    rejected, rejects the whole and the queue is left.

    [_queue] is an array used at its end only: the head of the list is the
    end of the array. *)
Definition queue_push {A : Type} (queue : list A) (x : A) : list A := x :: queue.

Fixpoint drainQueue {A B : Type} (mapper : A -> M Svc B) (queue : list A)
    : M Svc unit :=
  match queue with
  | [] => ret tt
  | item :: queue' =>
      tryCatch (mapper item) >>- (fun _ => drainQueue mapper queue')
  end.

Definition Promise_map_1 {A B : Type} (input : list A) (mapper : A -> M Svc B)
    : M Svc unit :=
  match input with
  | [] => ret tt
  | first :: rest =>
      let queue := fold_left queue_push rest [] in
      tryCatch (mapper first) >>- (fun _ => drainQueue mapper queue)
  end.

(** *** Batches, hooks and commands *)

(** The same completion with its value seen at another type: the methods
    below return promises of different values from one [return] to the
    next. *)
Definition returning {A B : Type} (f : A -> B) (m : M Svc A) : M Svc B :=
  fun s =>
    match m s with
    | (Fulfilled a, tr, s1) => (Fulfilled (f a), tr, s1)
    | (c, tr, s1) => (carry c, tr, s1)
    end.

Definition createAthenaTables (fuel : nat) (tables : Js.object Table) : M Svc unit :=
  Promise_map_1 (Js.Object_entries tables)
    (fun tableEntry => createAthenaTable fuel (fst tableEntry) (snd tableEntry))
  >>- (fun _ => _ <- log "Athena tables created successfully." ;; ret tt).

Definition deleteAthenaTables (fuel : nat) (tables : Js.object Table) : M Svc unit :=
  Promise_map_1 (Js.Object_entries tables)
    (fun tableEntry => deleteAthenaTable fuel (fst tableEntry) (snd tableEntry) None)
  >>- (fun _ => _ <- log "Athena tables deleted successfully." ;; ret tt).

(** The value is [undefined] ([None]) when there are no tables. *)
Definition validateAthenaTablesGlobal : M Svc (option (list (string * Table))) :=
  let athenaTables := getAthenaTables in
  if (0 <? length (Js.Object_keys athenaTables))%nat then
    _ <- log "Validating Athena tables..." ;;
    returning Some
      (Promise_all (Js.Object_entries athenaTables)
         (fun tableEntry => validateAthenaTable (fst tableEntry) (snd tableEntry)))
  else ret None.

Definition createAthenaTablesGlobal (fuel : nat) : M Svc unit :=
  let athenaTables := getAthenaTables in
  if (0 <? length (Js.Object_keys athenaTables))%nat then
    _ <- log "Creating Athena tables..." ;;
    createAthenaTables fuel athenaTables
  else ret tt.

Definition deleteAthenaTablesGlobal (fuel : nat) : M Svc unit :=
  let athenaTables := getAthenaTables in
  if (0 <? length (Js.Object_keys athenaTables))%nat then
    _ <- log "Removing Athena tables..." ;;
    deleteAthenaTables fuel athenaTables
  else ret tt.

Definition msg_none_found : string :=
  "No Athena tables found.  Define them in a custom.athenatables section in serverless.yml.".

(** The value is the execution id for one table and [undefined] ([None])
    for all of them.  [athenaTables[this.options.table]] is a lookup on a
    plain object: a name that is no table but a member of
    [Object.prototype] finds that member, which is truthy. *)
Definition deployAthenaTablesDeploy (fuel : nat) : M Svc (option string) :=
  let athenaTables := getAthenaTables in
  if Js.truthy (options_table this) then
    let table := Js.lookup athenaTables (Js.tmpl (options_table this)) in
    match table with
    | Some found =>
        _ <- log ("Creating Athena table " ++ Js.tmpl_member table ++ "...") ;;
        returning Some
          (createAthenaTable fuel (Js.tmpl (options_table this))
             (definition_of found))
    | None => reject (JsError ("Athena table not found: " ++ Js.tmpl_member table))
    end
  else if (0 <? length (Js.Object_keys athenaTables))%nat then
    _ <- log "Creating all Athena tables..." ;;
    returning (fun _ => None) (createAthenaTables fuel athenaTables)
  else
    _ <- log msg_none_found ;;
    ret None.

Definition removeAthenaTablesRemove (fuel : nat) : M Svc (option string) :=
  let athenaTables := getAthenaTables in
  if Js.truthy (options_table this) then
    let table := Js.lookup athenaTables (Js.tmpl (options_table this)) in
    match table with
    | Some found =>
        _ <- log ("Removing Athena table " ++ Js.tmpl_member table ++ "...") ;;
        returning Some
          (deleteAthenaTable fuel (Js.tmpl (options_table this))
             (definition_of found) None)
    | None => reject (JsError ("Athena table not found: " ++ Js.tmpl_member table))
    end
  else if (0 <? length (Js.Object_keys athenaTables))%nat then
    _ <- log "Removing all Athena tables..." ;;
    returning (fun _ => None) (deleteAthenaTables fuel athenaTables)
  else
    _ <- log msg_none_found ;;
    ret None.

End Methods.

Arguments athena_startQueryExecution {Svc} athena params _.
Arguments readFile {Svc} files path _.
Arguments waitForAthenaQuery {Svc} athena fuel id _.
Arguments validateAthenaTable {Svc} tableName table _.
Arguments deleteAthenaTable {Svc} athena fuel tableName table ifExists _.
Arguments readDDL {Svc} files table _.
Arguments substituteDDL {Svc} table ddl _.
Arguments createAthenaTable {Svc} athena files fuel tableName table _.
Arguments Promise_all {Svc A B} input _ _.
Arguments tryCatch {Svc A} m _.
Arguments drainQueue {Svc A B} mapper queue _.
Arguments Promise_map_1 {Svc A B} input mapper _.
Arguments returning {Svc A B} f m _.
Arguments createAthenaTables {Svc} athena files fuel tables _.
Arguments deleteAthenaTables {Svc} athena fuel tables _.
Arguments validateAthenaTablesGlobal {Svc} this _.
Arguments createAthenaTablesGlobal {Svc} athena files this fuel _.
Arguments deleteAthenaTablesGlobal {Svc} athena this fuel _.
Arguments deployAthenaTablesDeploy {Svc} athena files this fuel _.
Arguments removeAthenaTablesRemove {Svc} athena this fuel _.

(** ** A scripted service

    The answers the two calls will give, in the order they are asked for,
    whatever the arguments: enough to run the plugin on examples. *)

Record Script := mkScript {
  on_start : list (Err + string);
  on_status : list (Err + string)
}.

Definition scripted : Athena Script := {|
  startQueryExecution := fun _ s =>
    match on_start s with
    | r :: rest => (r, mkScript rest (on_status s))
    | [] => (inl (AwsError "ThrottlingException"), s)
    end;
  getQueryExecution := fun _ s =>
    match on_status s with
    | r :: rest => (r, mkScript (on_start s) rest)
    | [] => (inr "RUNNING", s)
    end
|}.

(** The status checks answer with these states, one after the other. *)
Definition states (l : list string) : list (Err + string) := map inr l.

Definition no_files : Files := fun _ => None.

(** A definition with inline DDL and every required field. *)
Definition inline_table (name ddl : string) : Table := {|
  DDL := Some ddl;
  DDLFile := None;
  OutputLocation := Some "s3://bucket/out/";
  TableName := Some name;
  DatabaseName := Some "db";
  DDLSubstitutions := None
|}.

(** A definition with nothing in it. *)
Definition empty_table : Table := {|
  DDL := None;
  DDLFile := None;
  OutputLocation := None;
  TableName := None;
  DatabaseName := None;
  DDLSubstitutions := None
|}.

(** ** Notions for the statements *)

(** A definition as the data model wants it: exactly one source of DDL,
    an output location and a table name.  A field is present when it is set
    to a text that is not empty, which is what the code tests. *)
Definition valid (table : Table) : bool :=
  xorb (Js.truthy (DDL table)) (Js.truthy (DDLFile table))
  && Js.truthy (OutputLocation table)
  && Js.truthy (TableName table).

(** The [params] of the drop that [createAthenaTable] starts with. *)
Definition drop_params (ifExists : bool) (table : Table) : StartParams := {|
  QueryString := Some (drop_query ifExists table);
  ResultConfiguration_OutputLocation := OutputLocation table;
  QueryExecutionContext_Database := context_of table
|}.

(** The order in which [Promise.map] under a limit of one calls its
    mapper: the first element, then the others from the last. *)
Definition map_order {A : Type} (input : list A) : list A :=
  match input with
  | [] => []
  | first :: others => first :: rev others
  end.

(** The operations of a batch carried out one after the other, each
    fulfilled, from a state of the service to the next: the events of all
    of them and the state at the end. *)
Inductive Completed {Svc A B : Type} (op : A -> M Svc B)
    : list A -> Svc -> list Event -> Svc -> Prop :=
| Completed_nil : forall s, Completed op [] s [] s
| Completed_cons : forall item rest s v tr1 s1 tr2 s2,
    op item s = (Fulfilled v, tr1, s1) ->
    Completed op rest s1 tr2 s2 ->
    Completed op (item :: rest) s (tr1 ++ tr2)%list s2.

(** The events of a validation that passes. *)
Definition validation_log (tableName : string) (table : Table) : list Event :=
  if Js.truthy (DatabaseName table) then []
  else [EvLog (msg_no_database tableName)].

Definition msg_removing (tableName : string) (table : Table) : string :=
  "Removing Athena table " ++ tableName ++ " (" ++
  Js.tmpl (TableName table) ++ ")...".

(** The completion is a value. *)
Definition fulfilled {A : Type} (c : Completion A) : bool :=
  match c with
  | Fulfilled _ => true
  | _ => false
  end.

(** The per-table operations of the two batches. *)
Definition create_entry {Svc : Type} (athena : Athena Svc) (files : Files)
    (fuel : nat) (tableEntry : string * Table) : M Svc string :=
  createAthenaTable athena files fuel (fst tableEntry) (snd tableEntry).

Definition delete_entry {Svc : Type} (athena : Athena Svc)
    (fuel : nat) (tableEntry : string * Table) : M Svc string :=
  deleteAthenaTable athena fuel (fst tableEntry) (snd tableEntry) None.

(** Three tables [a], [b], [c], in this order in the configuration. *)
Definition three_tables : Js.object Table :=
  [("a", inline_table "ta" "CREATE EXTERNAL TABLE ta");
   ("b", inline_table "tb" "CREATE EXTERNAL TABLE tb");
   ("c", inline_table "tc" "CREATE EXTERNAL TABLE tc")].

(** A service on which the first two submissions succeed at once and the
    third is refused. *)
Definition third_refused : Script :=
  mkScript [inr "q-1"; inr "q-2"; inl (AwsError "InvalidRequestException")]
           (states ["SUCCEEDED"; "SUCCEEDED"]).

(** The texts of the queries submitted by a run. *)
Definition queries {A : Type} (run : Completion A * list Event * Script)
    : list Js.field :=
  map QueryString (submitted (snd (fst run))).

(** ** The rest of the plugin *)

(** *** [shim]

    [shim] installs this [Object.entries] where the runtime has none.  An
    array is a list of slots, [None] for a hole; writing at an index past
    the end makes the array longer, with holes in between. *)

Fixpoint array_set {A : Type} (arr : list (option A)) (i : nat) (v : A)
    : list (option A) :=
  match i, arr with
  | O, [] => [Some v]
  | O, _ :: rest => Some v :: rest
  | S i', [] => None :: array_set [] i' v
  | S i', x :: rest => x :: array_set rest i' v
  end.

(** [while (i--) resArray[i] = [ownProps[i], obj[ownProps[i]]]]: the test
    sees [i] and the body sees it one less.  An index past the keys would
    read [undefined] and then the property named so. *)
Fixpoint shim_loop {A : Type} (obj : Js.object A) (ownProps : list string)
    (i : nat) (resArray : list (option (Js.field * option A)))
    : list (option (Js.field * option A)) :=
  match i with
  | O => resArray
  | S i' =>
      let key := nth_error ownProps i' in
      shim_loop obj ownProps i'
        (array_set resArray i' (key, Js.get obj (Js.tmpl key)))
  end.

Definition shim_entries {A : Type} (obj : Js.object A)
    : list (option (Js.field * option A)) :=
  let ownProps := Js.Object_keys obj in
  let i := length ownProps in
  let resArray := repeat None i in
  shim_loop obj ownProps i resArray.

(** *** Notions for the statements *)

(** From a state of the service, [n] status checks in a row are answered
    RUNNING or QUEUED and lead to another state. *)
Inductive Busy {Svc : Type} (athena : Athena Svc) (id : string)
    : Svc -> nat -> Svc -> Prop :=
| Busy_O : forall s, Busy athena id s 0 s
| Busy_S : forall s state s1 n s',
    getQueryExecution athena id s = (inr state, s1) ->
    state = "RUNNING" \/ state = "QUEUED" ->
    Busy athena id s1 n s' ->
    Busy athena id s (S n) s'.

(** How the poller settles on a state that is neither RUNNING nor
    QUEUED. *)
Definition settled_by (id final : string) : Completion string :=
  if final =? "SUCCEEDED" then Fulfilled id
  else Rejected (Reason ("Query status " ++ final)).

(** The text of the DDL before the substitutions: the file when DDLFile is
    set, read or not, else the inline text. *)
Definition source_text (files : Files) (table : Table) : Err + string :=
  if Js.truthy (DDLFile table) then
    match files (Js.tmpl (DDLFile table)) with
    | Some text => inr text
    | None => inl (IOError (Js.tmpl (DDLFile table)))
    end
  else inr (Js.tmpl (DDL table)).

(** The event of reading it. *)
Definition read_events (files : Files) (table : Table) : list Event :=
  if Js.truthy (DDLFile table) then
    [EvReadFile (Js.tmpl (DDLFile table))
       match files (Js.tmpl (DDLFile table)) with
       | Some text => inr text
       | None => inl (IOError (Js.tmpl (DDLFile table)))
       end]
  else [].

(** The text after the substitutions of the definition. *)
Definition resolved (table : Table) (text : string) : string :=
  match DDLSubstitutions table with
  | Some substitutions => substitute substitutions text
  | None => text
  end.

(** The [params] of the submission that creates the table. *)
Definition create_params (table : Table) (text : string) : StartParams := {|
  QueryString := Some (resolved table text);
  ResultConfiguration_OutputLocation := OutputLocation table;
  QueryExecutionContext_Database := context_of table
|}.

Definition msg_creating (tableName : string) : string :=
  "Creating Athena table " ++ tableName ++ "...".

(** The log lines among the events. *)
Fixpoint logged (tr : list Event) : list string :=
  match tr with
  | [] => []
  | EvLog msg :: tr' => msg :: logged tr'
  | _ :: tr' => logged tr'
  end.

(** The files read among the events. *)
Fixpoint files_read (tr : list Event) : list string :=
  match tr with
  | [] => []
  | EvReadFile path _ :: tr' => path :: files_read tr'
  | _ :: tr' => files_read tr'
  end.

(** The executions whose status was asked for. *)
Fixpoint checked (tr : list Event) : list string :=
  match tr with
  | [] => []
  | EvStatus id _ :: tr' => id :: checked tr'
  | _ :: tr' => checked tr'
  end.

(** The queries of one table in a batch of creations that went through:
    the drop and the create. *)
Definition creation_queries (files : Files) (tableEntry : string * Table)
    : list StartParams :=
  match source_text files (snd tableEntry) with
  | inr text =>
      [drop_params true (snd tableEntry); create_params (snd tableEntry) text]
  | inl _ => [drop_params true (snd tableEntry)]
  end.

Definition msg_created : string := "Athena tables created successfully.".

Definition msg_deleted : string := "Athena tables deleted successfully.".

(** ** Proof steps *)

(** A step that was not fulfilled: the run is that of the step. *)
Ltac stops :=
  let H := fresh "H" in
  intros H; injection H as <- <- <-; right; eexists; now repeat split.

(** ** Strings *)

Lemma append_inj_l (p a b : string) : p ++ a = p ++ b -> a = b.
Proof.
  induction p as [|x p IH]; simpl; intros H; [exact H|].
  injection H as H. now apply IH.
Qed.

(** Two texts cut at the same length are cut at the same place. *)
Lemma append_inj_length (a b a' b' : string) :
  a ++ b = a' ++ b' -> String.length a = String.length a' -> a = a' /\ b = b'.
Proof.
  revert a'. induction a as [|x a IH]; intros [|y a'] H L; simpl in *;
    try discriminate.
  - now split.
  - injection H as -> H. destruct (IH a' H) as [-> ->]; [lia | now split].
Qed.

Lemma prefix_append (pat rest : string) : prefix pat (pat ++ rest) = true.
Proof.
  induction pat as [|x pat IH]; simpl.
  - now destruct rest.
  - destruct (ascii_dec x x) as [_|N]; [exact IH | now elim N].
Qed.

Lemma prefix_inv (pat s : string) :
  prefix pat s = true -> s = pat ++ Js.drop (String.length pat) s.
Proof.
  revert s. induction pat as [|x pat IH]; intros s H.
  - reflexivity.
  - destruct s as [|y s]; simpl in H; [discriminate|].
    destruct (ascii_dec x y) as [->|]; [|discriminate].
    simpl. f_equal. now apply IH.
Qed.

(** *** The leftmost occurrence *)

Lemma split_first_nil (pat : string) :
  Js.split_first pat "" =
  if prefix pat "" then Some ("", Js.drop (String.length pat) "") else None.
Proof. reflexivity. Qed.

Lemma split_first_cons (pat : string) (c : ascii) (s : string) :
  Js.split_first pat (String c s) =
  if prefix pat (String c s)
  then Some ("", Js.drop (String.length pat) (String c s))
  else match Js.split_first pat s with
       | Some (before, after) => Some (String c before, after)
       | None => None
       end.
Proof. reflexivity. Qed.

Lemma split_first_sound (pat : string) :
  forall s before after,
    Js.split_first pat s = Some (before, after) -> s = before ++ pat ++ after.
Proof.
  induction s as [|c s IH]; intros before after H;
    [rewrite split_first_nil in H | rewrite split_first_cons in H].
  - destruct (prefix pat "") eqn:P; [|discriminate].
    injection H as <- <-. now apply prefix_inv in P.
  - destruct (prefix pat (String c s)) eqn:P.
    + injection H as <- <-. now apply prefix_inv in P.
    + destruct (Js.split_first pat s) as [[b a]|] eqn:E; [|discriminate].
      injection H as <- <-. simpl. f_equal. now apply IH.
Qed.

Lemma split_first_leftmost (pat : string) :
  forall s before after,
    Js.split_first pat s = Some (before, after) ->
    forall before' after',
      s = before' ++ pat ++ after' ->
      String.length before <= String.length before'.
Proof.
  induction s as [|c s IH]; intros before after H before' after' E;
    [rewrite split_first_nil in H | rewrite split_first_cons in H].
  - destruct (prefix pat "") eqn:P; [|discriminate].
    injection H as <- <-. simpl. lia.
  - destruct (prefix pat (String c s)) eqn:P.
    + injection H as <- <-. simpl. lia.
    + destruct (Js.split_first pat s) as [[b a]|] eqn:F; [|discriminate].
      injection H as <- <-.
      destruct before' as [|c' before']; simpl in E.
      * rewrite E, prefix_append in P. discriminate.
      * injection E as _ E. simpl. apply le_n_S. now apply (IH b a eq_refl before' after').
Qed.

Lemma split_first_none (pat : string) :
  forall s, Js.split_first pat s = None -> ~ Js.occurs pat s.
Proof.
  induction s as [|c s IH]; intros H [before [after E]];
    [rewrite split_first_nil in H | rewrite split_first_cons in H].
  - destruct (prefix pat "") eqn:P; [discriminate|].
    destruct before; [|discriminate]. simpl in E.
    rewrite E, prefix_append in P. discriminate.
  - destruct (prefix pat (String c s)) eqn:P; [discriminate|].
    destruct (Js.split_first pat s) as [[b a]|] eqn:F; [discriminate|].
    destruct before as [|c' before]; simpl in E.
    + rewrite E, prefix_append in P. discriminate.
    + injection E as _ E. apply (IH eq_refl). now exists before, after.
Qed.

(** The split at an occurrence that has none to its left is the one the
    search finds. *)
Lemma split_first_complete (pat s before after : string) :
  s = before ++ pat ++ after ->
  (forall before' after',
     s = before' ++ pat ++ after' ->
     String.length before <= String.length before') ->
  Js.split_first pat s = Some (before, after).
Proof.
  intros E L.
  destruct (Js.split_first pat s) as [[b a]|] eqn:F.
  - pose proof (split_first_sound _ _ _ _ F) as E'.
    pose proof (split_first_leftmost _ _ _ _ F _ _ E) as L1.
    pose proof (L _ _ E') as L2.
    assert (b = before /\ pat ++ a = pat ++ after) as [-> Ea].
    { apply append_inj_length; [congruence | lia]. }
    now apply append_inj_l in Ea as ->.
  - exfalso. apply (split_first_none _ _ F). now exists before, after.
Qed.

Lemma GetSubstitution_plain (matched before after : string) :
  forall value,
    Js.has_pattern value = false ->
    Js.GetSubstitution matched before after value = value.
Proof.
  induction value as [|c value IH]; intros H; [reflexivity|].
  cbn [Js.has_pattern] in H. apply orb_false_iff in H as [Hc Hv].
  cbn [Js.GetSubstitution]. destruct (Ascii.eqb c "$") eqn:C.
  - destruct value as [|d value]; [reflexivity|].
    simpl in Hc. unfold Js.special in Hc.
    apply orb_false_iff in Hc as [Hc H4]. apply orb_false_iff in Hc as [Hc H3].
    apply orb_false_iff in Hc as [H1 H2]. rewrite H1, H2, H3, H4.
    f_equal. now apply IH.
  - f_equal. now apply IH.
Qed.

(** [replace] with a replacement text that has no pattern. *)
Lemma replace_first (s pat value before after : string) :
  Js.has_pattern value = false ->
  s = before ++ pat ++ after ->
  (forall before' after',
     s = before' ++ pat ++ after' ->
     String.length before <= String.length before') ->
  Js.replace s pat value = before ++ value ++ after.
Proof.
  intros D E L. unfold Js.replace.
  rewrite (split_first_complete _ _ _ _ E L).
  now rewrite GetSubstitution_plain.
Qed.

Lemma replace_absent (s pat value : string) :
  ~ Js.occurs pat s -> Js.replace s pat value = s.
Proof.
  intros N. unfold Js.replace.
  destruct (Js.split_first pat s) as [[b a]|] eqn:F; [|reflexivity].
  exfalso. apply N. exists b, a. now apply split_first_sound.
Qed.

(** ** Sequencing *)

Lemma then_inv {Svc A B : Type} (m : M Svc A) (f : A -> M Svc B) s c tr s' :
  then_ m f s = (c, tr, s') ->
  (exists a tr1 s1 c2 tr2,
     m s = (Fulfilled a, tr1, s1) /\ f a s1 = (c2, tr2, s') /\
     c = settle c2 /\ tr = (tr1 ++ tr2)%list) \/
  (exists c1,
     m s = (c1, tr, s') /\ (forall a, c1 <> Fulfilled a) /\ c = carry c1).
Proof.
  unfold then_. destruct (m s) as [[c1 tr1] s1].
  destruct c1 as [a|e|e| |].
  - destruct (f a s1) as [[c2 tr2] s2] eqn:F. intros H. injection H as <- <- <-.
    left. now exists a, tr1, s1, c2, tr2.
  - stops.
  - stops.
  - stops.
  - stops.
Qed.

Lemma submitted_app (tr1 tr2 : list Event) :
  submitted (tr1 ++ tr2) = (submitted tr1 ++ submitted tr2)%list.
Proof.
  induction tr1 as [|ev tr1 IH]; [reflexivity|].
  destruct ev; simpl; now rewrite ?IH.
Qed.

(** ** The poller *)

Lemma switch_again (id state : string) (ms : nat) :
  isQueryComplete_switch id state = Again ms ->
  (state = "RUNNING" \/ state = "QUEUED") /\ ms = 1000.
Proof.
  unfold isQueryComplete_switch.
  destruct (String.eqb_spec state "SUCCEEDED"); [discriminate|].
  destruct (String.eqb_spec state "RUNNING");
    [intros H; injection H as <-; auto|].
  destruct (String.eqb_spec state "QUEUED");
    [intros H; injection H as <-; auto|].
  destruct (state =? "FAILED"); [discriminate|].
  destruct (state =? "CANCELLED"); discriminate.
Qed.

Lemma switch_resolve (id state v : string) :
  isQueryComplete_switch id state = Resolve v -> state = "SUCCEEDED" /\ v = id.
Proof.
  unfold isQueryComplete_switch.
  destruct (String.eqb_spec state "SUCCEEDED");
    [intros H; injection H as <-; auto|].
  destruct (state =? "RUNNING"); [discriminate|].
  destruct (state =? "QUEUED"); [discriminate|].
  destruct (state =? "FAILED"); [discriminate|].
  destruct (state =? "CANCELLED"); discriminate.
Qed.

(** Whatever is not one of the three states is rejected, with the state in
    the reason. *)
Lemma switch_other (id state : string) :
  state <> "SUCCEEDED" -> state <> "RUNNING" -> state <> "QUEUED" ->
  isQueryComplete_switch id state = Reject ("Query status " ++ state).
Proof.
  intros N1 N2 N3. unfold isQueryComplete_switch.
  apply String.eqb_neq in N1, N2, N3. rewrite N1, N2, N3.
  destruct (state =? "FAILED"); [reflexivity|].
  destruct (state =? "CANCELLED"); reflexivity.
Qed.

Section Poller.

Context {Svc : Type} (athena : Athena Svc).

(** One status check, by what it sees. *)
Lemma wait_step_succeeded fuel id s s1 :
  getQueryExecution athena id s = (inr "SUCCEEDED", s1) ->
  waitForAthenaQuery athena (S fuel) id s =
  (Fulfilled id, [EvStatus id (inr "SUCCEEDED")], s1).
Proof. intros H. simpl. now rewrite H. Qed.

Lemma wait_step_again fuel id state s s1 :
  getQueryExecution athena id s = (inr state, s1) ->
  state = "RUNNING" \/ state = "QUEUED" ->
  waitForAthenaQuery athena (S fuel) id s =
  let '(c, tr, s2) := waitForAthenaQuery athena fuel id s1 in
  (c, EvStatus id (inr state) :: EvTimeout 1000 :: tr, s2).
Proof. intros H [-> | ->]; simpl; now rewrite H. Qed.

Lemma wait_step_other fuel id state s s1 :
  getQueryExecution athena id s = (inr state, s1) ->
  state <> "SUCCEEDED" -> state <> "RUNNING" -> state <> "QUEUED" ->
  waitForAthenaQuery athena (S fuel) id s =
  (Rejected (Reason ("Query status " ++ state)), [EvStatus id (inr state)], s1).
Proof.
  intros H N1 N2 N3. simpl. rewrite H.
  now rewrite (switch_other id state N1 N2 N3).
Qed.

(** The poller submits nothing. *)
Lemma wait_submits_nothing fuel :
  forall id s c tr s',
    waitForAthenaQuery athena fuel id s = (c, tr, s') -> submitted tr = [].
Proof.
  induction fuel as [|fuel IH]; intros id s c tr s' H; simpl in H.
  - now injection H as <- <- <-.
  - destruct (getQueryExecution athena id s) as [[e|state] s1].
    + now injection H as <- <- <-.
    + destruct (isQueryComplete_switch id state).
      * now injection H as <- <- <-.
      * destruct (waitForAthenaQuery athena fuel id s1) as [[c1 tr1] s2] eqn:W.
        injection H as <- <- <-. simpl. now apply (IH _ _ _ _ _ W).
      * now injection H as <- <- <-.
Qed.

(** It is fulfilled only upon a check that saw SUCCEEDED, its last event,
    and then with the id it was given. *)
Lemma wait_fulfilled fuel :
  forall id s v tr s',
    waitForAthenaQuery athena fuel id s = (Fulfilled v, tr, s') ->
    v = id /\ exists polls, tr = (polls ++ [EvStatus id (inr "SUCCEEDED")])%list.
Proof.
  induction fuel as [|fuel IH]; intros id s v tr s' H; simpl in H.
  - discriminate.
  - destruct (getQueryExecution athena id s) as [[e|state] s1].
    + discriminate.
    + destruct (isQueryComplete_switch id state) eqn:V.
      * injection H as <- <- <-. apply switch_resolve in V as [-> ->].
        split; [reflexivity | now exists []].
      * destruct (waitForAthenaQuery athena fuel id s1) as [[c1 tr1] s2] eqn:W.
        injection H as -> <- <-.
        destruct (IH _ _ _ _ _ W) as [-> [polls ->]].
        split; [reflexivity|].
        now exists (EvStatus id (inr state) :: EvTimeout ms :: polls).
      * discriminate.
Qed.

(** A check that is followed by anything saw RUNNING or QUEUED, and what
    follows it is the delay of one second. *)
Lemma wait_continues fuel :
  forall id s c tr s' before id' state after,
    waitForAthenaQuery athena fuel id s = (c, tr, s') ->
    tr = (before ++ EvStatus id' (inr state) :: after)%list ->
    after <> [] ->
    (state = "RUNNING" \/ state = "QUEUED") /\
    exists after', after = EvTimeout 1000 :: after'.
Proof.
  induction fuel as [|fuel IH]; intros id s c tr s' before id' state after H E N;
    simpl in H.
  - injection H as <- <- <-. now destruct before.
  - destruct (getQueryExecution athena id s) as [[e|st] s1].
    + injection H as <- <- <-.
      destruct before as [|x [|y before]]; simpl in E; discriminate.
    + destruct (isQueryComplete_switch id st) eqn:V.
      * injection H as <- <- <-.
        destruct before as [|x [|y before]]; simpl in E; try discriminate.
        injection E as _ _ <-. now elim N.
      * destruct (waitForAthenaQuery athena fuel id s1) as [[c1 tr1] s2] eqn:W.
        injection H as <- <- <-. apply switch_again in V as [V ->].
        destruct before as [|x [|y before]]; simpl in E.
        -- injection E as _ <- <-. split; [exact V | now exists tr1].
        -- discriminate.
        -- injection E as _ _ E. now apply (IH _ _ _ _ _ _ _ _ _ W E).
      * injection H as <- <- <-.
        destruct before as [|x [|y before]]; simpl in E; try discriminate.
        injection E as _ _ <-. now elim N.
Qed.

(** A run that ended within its bound ends the same under a larger one. *)
Lemma wait_more_fuel fuel :
  forall extra id s c tr s',
    waitForAthenaQuery athena fuel id s = (c, tr, s') ->
    c <> OutOfFuel ->
    waitForAthenaQuery athena (fuel + extra) id s = (c, tr, s').
Proof.
  induction fuel as [|fuel IH]; intros extra id s c tr s' H N; simpl in H.
  - injection H as <- <- <-. now elim N.
  - simpl. destruct (getQueryExecution athena id s) as [[e|st] s1]; [exact H|].
    destruct (isQueryComplete_switch id st); try exact H.
    destruct (waitForAthenaQuery athena fuel id s1) as [[c1 tr1] s2] eqn:W.
    injection H as <- <- <-. now rewrite (IH extra _ _ _ _ _ W N).
Qed.

End Poller.

(** On the scripted service: after [n] answers RUNNING or QUEUED and one
    answer that is neither, the poller has settled at check [n + 1], under
    any bound larger than [n], and has left the rest of the script. *)
Lemma wait_scripted_ends (busy : list string) (final : string) :
  Forall (fun st => st = "RUNNING" \/ st = "QUEUED") busy ->
  final <> "RUNNING" -> final <> "QUEUED" ->
  forall extra id starts rest,
  exists c tr,
    waitForAthenaQuery scripted (S (length busy) + extra) id
      (mkScript starts (states (busy ++ final :: rest))) =
    (c, tr, mkScript starts (states rest)) /\
    ((exists v, c = Fulfilled v) \/ (exists e, c = Rejected e)) /\
    checks tr = S (length busy).
Proof.
  intros B N1 N2 extra id starts rest.
  induction B as [|st busy Hst B IH].
  - cbn [length app plus]. cbn [waitForAthenaQuery getQueryExecution scripted states map on_status on_start].
    destruct (isQueryComplete_switch id final) eqn:V.
    + exists (Fulfilled id0), [EvStatus id (inr final)].
      split; [reflexivity | split; [|reflexivity]]. left. now exists id0.
    + apply switch_again in V as [[-> | ->] _]; congruence.
    + exists (Rejected (Reason reason)), [EvStatus id (inr final)].
      split; [reflexivity | split; [|reflexivity]]. right. now exists (Reason reason).
  - destruct IH as (c & tr & E & Hc & C).
    exists c, (EvStatus id (inr st) :: EvTimeout 1000 :: tr).
    split; [| split].
    + change (S (length (st :: busy)) + extra)
        with (S (S (length busy) + extra)).
      rewrite (wait_step_again scripted (S (length busy) + extra) id st
                 (mkScript starts (states ((st :: busy) ++ final :: rest)))
                 (mkScript starts (states (busy ++ final :: rest))) eq_refl Hst).
      now rewrite E.
    + exact Hc.
    + unfold checks in *. simpl. now rewrite C.
Qed.

(** C1.  Each status check of [waitForAthenaQuery]: on SUCCEEDED the
    promise is resolved with the execution id; on FAILED or CANCELLED it is
    rejected with a reason that carries the state, and this check is the
    last event; on RUNNING or QUEUED the check is made again after
    [setTimeout] of 1000 ms.  When the service answers QUEUED, RUNNING,
    SUCCEEDED the promise is resolved after exactly three checks, and when
    it answers FAILED at once the promise is rejected after exactly one. *)
Theorem waitForAthenaQuery_status_checks :
  forall (Svc : Type) (athena : Athena Svc) (id : string),
    (forall fuel s s1,
       getQueryExecution athena id s = (inr "SUCCEEDED", s1) ->
       waitForAthenaQuery athena (S fuel) id s =
       (Fulfilled id, [EvStatus id (inr "SUCCEEDED")], s1)) /\
    (forall fuel state s s1,
       getQueryExecution athena id s = (inr state, s1) ->
       state = "FAILED" \/ state = "CANCELLED" ->
       waitForAthenaQuery athena (S fuel) id s =
       (Rejected (Reason ("Query status " ++ state)),
        [EvStatus id (inr state)], s1)) /\
    (forall fuel state s s1,
       getQueryExecution athena id s = (inr state, s1) ->
       state = "RUNNING" \/ state = "QUEUED" ->
       waitForAthenaQuery athena (S fuel) id s =
       let '(c, tr, s2) := waitForAthenaQuery athena fuel id s1 in
       (c, EvStatus id (inr state) :: EvTimeout 1000 :: tr, s2)) /\
    (forall fuel s0 s1 s2 s3,
       getQueryExecution athena id s0 = (inr "QUEUED", s1) ->
       getQueryExecution athena id s1 = (inr "RUNNING", s2) ->
       getQueryExecution athena id s2 = (inr "SUCCEEDED", s3) ->
       exists tr,
         waitForAthenaQuery athena (3 + fuel) id s0 = (Fulfilled id, tr, s3) /\
         checks tr = 3 /\ delays tr = [1000; 1000]) /\
    (forall fuel s0 s1,
       getQueryExecution athena id s0 = (inr "FAILED", s1) ->
       exists tr,
         waitForAthenaQuery athena (1 + fuel) id s0 =
         (Rejected (Reason "Query status FAILED"), tr, s1) /\
         checks tr = 1 /\ delays tr = []).
Proof.
  intros Svc athena id. repeat split.
  - intros fuel s s1 H. now apply wait_step_succeeded.
  - intros fuel state s s1 H [-> | ->];
      now apply wait_step_other.
  - intros fuel state s s1 H R. now apply wait_step_again.
  - intros fuel s0 s1 s2 s3 H0 H1 H2.
    eexists. split.
    + change (3 + fuel) with (S (S (S fuel))).
      rewrite (wait_step_again athena _ _ _ _ _ H0 (or_intror eq_refl)).
      rewrite (wait_step_again athena _ _ _ _ _ H1 (or_introl eq_refl)).
      rewrite (wait_step_succeeded athena _ _ _ _ H2). reflexivity.
    + split; reflexivity.
  - intros fuel s0 s1 H0. eexists. split.
    + change (1 + fuel) with (S fuel).
      now rewrite (wait_step_other athena _ _ _ _ _ H0).
    + split; reflexivity.
Qed.

Lemma waitForAthenaQuery_status_checks_witness :
  waitForAthenaQuery scripted 1 "q-1" (mkScript [] (states ["SUCCEEDED"])) =
    (Fulfilled "q-1", [EvStatus "q-1" (inr "SUCCEEDED")], mkScript [] []) /\
  waitForAthenaQuery scripted 1 "q-1" (mkScript [] (states ["CANCELLED"; "SUCCEEDED"])) =
    (Rejected (Reason "Query status CANCELLED"),
     [EvStatus "q-1" (inr "CANCELLED")], mkScript [] (states ["SUCCEEDED"])) /\
  waitForAthenaQuery scripted 2 "q-1" (mkScript [] (states ["RUNNING"; "SUCCEEDED"])) =
    (Fulfilled "q-1",
     [EvStatus "q-1" (inr "RUNNING"); EvTimeout 1000;
      EvStatus "q-1" (inr "SUCCEEDED")], mkScript [] []) /\
  (exists tr,
     waitForAthenaQuery scripted 3 "q-1"
       (mkScript [] (states ["QUEUED"; "RUNNING"; "SUCCEEDED"])) =
     (Fulfilled "q-1", tr, mkScript [] []) /\
     checks tr = 3 /\ delays tr = [1000; 1000]) /\
  (exists tr,
     waitForAthenaQuery scripted 1 "q-1" (mkScript [] (states ["FAILED"])) =
     (Rejected (Reason "Query status FAILED"), tr, mkScript [] []) /\
     checks tr = 1 /\ delays tr = []).
Proof.
  destruct (waitForAthenaQuery_status_checks Script scripted "q-1")
    as (H1 & H2 & H3 & H4 & H5).
  split; [| split; [| split; [| split]]].
  - apply (H1 0). reflexivity.
  - apply (H2 0); [reflexivity | now right].
  - rewrite (H3 1 "RUNNING" _ (mkScript [] (states ["SUCCEEDED"])));
      [reflexivity | reflexivity | now left].
  - apply (H4 0 _ (mkScript [] (states ["RUNNING"; "SUCCEEDED"]))
                  (mkScript [] (states ["SUCCEEDED"]))); reflexivity.
  - apply (H5 0). reflexivity.
Defined.

(** C10.  A status check that sees a state other than SUCCEEDED, RUNNING
    and QUEUED, documented or not, rejects the promise on that check and is
    the last event.  In any run of the poller, a check that is followed by
    anything saw RUNNING or QUEUED, and what follows is the delay of
    1000 ms: the loop goes on under these two states only. *)
Theorem waitForAthenaQuery_unknown_state_rejects :
  forall (Svc : Type) (athena : Athena Svc) (id : string),
    (forall fuel state s s1,
       getQueryExecution athena id s = (inr state, s1) ->
       state <> "SUCCEEDED" -> state <> "RUNNING" -> state <> "QUEUED" ->
       waitForAthenaQuery athena (S fuel) id s =
       (Rejected (Reason ("Query status " ++ state)),
        [EvStatus id (inr state)], s1)) /\
    (forall fuel s c tr s' before id' state after,
       waitForAthenaQuery athena fuel id s = (c, tr, s') ->
       tr = (before ++ EvStatus id' (inr state) :: after)%list ->
       after <> [] ->
       (state = "RUNNING" \/ state = "QUEUED") /\
       exists after', after = EvTimeout 1000 :: after').
Proof.
  intros Svc athena id. split.
  - intros fuel state s s1 H N1 N2 N3. now apply wait_step_other.
  - intros fuel s c tr s' before id' state after H E N.
    exact (wait_continues athena fuel _ _ _ _ _ _ _ _ _ H E N).
Qed.

Lemma waitForAthenaQuery_unknown_state_rejects_witness :
  waitForAthenaQuery scripted 5 "q-1" (mkScript [] (states ["PAUSED"; "SUCCEEDED"])) =
    (Rejected (Reason "Query status PAUSED"),
     [EvStatus "q-1" (inr "PAUSED")], mkScript [] (states ["SUCCEEDED"])) /\
  (("QUEUED" = "RUNNING" \/ "QUEUED" = "QUEUED") /\
   exists after',
     [EvTimeout 1000; EvStatus "q-1" (inr "TIMED_OUT")] = EvTimeout 1000 :: after').
Proof.
  destruct (waitForAthenaQuery_unknown_state_rejects Script scripted "q-1")
    as (H1 & H2).
  split.
  - apply (H1 4); [reflexivity | | | ]; discriminate.
  - apply (H2 5 (mkScript [] (states ["QUEUED"; "TIMED_OUT"; "SUCCEEDED"]))
              (Rejected (Reason "Query status TIMED_OUT"))
              [EvStatus "q-1" (inr "QUEUED"); EvTimeout 1000;
               EvStatus "q-1" (inr "TIMED_OUT")]
              (mkScript [] (states ["SUCCEEDED"]))
              [] "q-1" "QUEUED");
      [reflexivity | reflexivity | discriminate].
Defined.

(** ** Validation *)

Lemma validate_valid {Svc : Type} (tableName : string) (table : Table) (s : Svc) :
  valid table = true ->
  validateAthenaTable tableName table s =
  (Fulfilled tt, validation_log tableName table, s).
Proof.
  unfold valid, validateAthenaTable, validation_log. intros V.
  apply andb_true_iff in V as [V Hn]. apply andb_true_iff in V as [Hx Ho].
  rewrite Ho, Hn.
  destruct (Js.truthy (DDL table)), (Js.truthy (DDLFile table));
    try discriminate; simpl;
    destruct (Js.truthy (DatabaseName table)); reflexivity.
Qed.

Lemma validate_invalid (tableName : string) (table : Table) :
  valid table = false ->
  exists msg, forall (Svc : Type) (s : Svc),
    validateAthenaTable tableName table s = (Thrown (ServerlessError msg), [], s).
Proof.
  unfold valid, validateAthenaTable. intros V.
  destruct (Js.truthy (DDL table)), (Js.truthy (DDLFile table));
    simpl in *; try (eexists; reflexivity);
    destruct (Js.truthy (OutputLocation table)); simpl in *;
    try (eexists; reflexivity);
    destruct (Js.truthy (TableName table)); simpl in *;
    try (eexists; reflexivity); discriminate.
Qed.

(** Validation calls nothing and leaves the service as it was. *)
Lemma validate_local {Svc : Type} (tableName : string) (table : Table) (s : Svc) :
  forall c tr s',
    validateAthenaTable tableName table s = (c, tr, s') ->
    remote_calls tr = [] /\ s' = s.
Proof.
  intros c tr s' H.
  destruct (valid table) eqn:V.
  - rewrite (validate_valid _ _ _ V) in H. injection H as <- <- <-.
    unfold validation_log. now destruct (Js.truthy (DatabaseName table)).
  - destruct (validate_invalid tableName table V) as [msg E].
    rewrite E in H. now injection H as <- <- <-.
Qed.

(** C6.  [validateAthenaTable] throws the framework's error when neither
    DDL nor DDLFile is present, throws it with another message when both
    are, throws it when OutputLocation is missing and when TableName is
    missing; a definition that lacks DatabaseName only is accepted, with
    one warning logged.  In every case no remote call is made and the
    service is left as it was.  A field is present when it is set to a text
    that is not empty. *)
Theorem validateAthenaTable_rejects :
  forall (Svc : Type) (tableName : string) (table : Table) (s : Svc),
    (Js.truthy (DDL table) = false -> Js.truthy (DDLFile table) = false ->
     validateAthenaTable tableName table s =
     (Thrown (ServerlessError (msg_no_ddl tableName)), [], s)) /\
    (Js.truthy (DDL table) = true -> Js.truthy (DDLFile table) = true ->
     validateAthenaTable tableName table s =
     (Thrown (ServerlessError (msg_both_ddl tableName)), [], s)) /\
    msg_no_ddl tableName <> msg_both_ddl tableName /\
    (Js.truthy (OutputLocation table) = false ->
     exists msg,
       validateAthenaTable tableName table s =
       (Thrown (ServerlessError msg), [], s)) /\
    (Js.truthy (TableName table) = false ->
     exists msg,
       validateAthenaTable tableName table s =
       (Thrown (ServerlessError msg), [], s)) /\
    (valid table = true -> Js.truthy (DatabaseName table) = false ->
     validateAthenaTable tableName table s =
     (Fulfilled tt, [EvLog (msg_no_database tableName)], s)) /\
    (forall c tr s',
       validateAthenaTable tableName table s = (c, tr, s') ->
       remote_calls tr = [] /\ s' = s).
Proof.
  intros Svc tableName table s. repeat split.
  - intros H1 H2. unfold validateAthenaTable. now rewrite H1, H2.
  - intros H1 H2. unfold validateAthenaTable. now rewrite H1, H2.
  - unfold msg_no_ddl, msg_both_ddl. intros E.
    apply append_inj_l, append_inj_l in E. discriminate.
  - intros H. destruct (validate_invalid tableName table) as [msg E].
    + unfold valid. rewrite H. now rewrite andb_false_r.
    + now exists msg.
  - intros H. destruct (validate_invalid tableName table) as [msg E].
    + unfold valid. rewrite H. now rewrite andb_false_r.
    + now exists msg.
  - intros V D. rewrite (validate_valid _ _ _ V). unfold validation_log.
    now rewrite D.
  - now apply (validate_local tableName table s c tr s').
  - now apply (validate_local tableName table s c tr s').
Qed.

Lemma validateAthenaTable_rejects_witness :
  validateAthenaTable "orders" empty_table (mkScript [] []) =
    (Thrown (ServerlessError (msg_no_ddl "orders")), [], mkScript [] []) /\
  validateAthenaTable "orders"
    (mkTable (Some "CREATE") (Some "orders.sql") (Some "s3://o/") (Some "orders") None None)
    (mkScript [] []) =
    (Thrown (ServerlessError (msg_both_ddl "orders")), [], mkScript [] []) /\
  (exists msg,
     validateAthenaTable "orders"
       (mkTable (Some "CREATE") None None (Some "orders") None None)
       (mkScript [] []) =
     (Thrown (ServerlessError msg), [], mkScript [] [])) /\
  (exists msg,
     validateAthenaTable "orders"
       (mkTable (Some "CREATE") None (Some "s3://o/") (Some "") None None)
       (mkScript [] []) =
     (Thrown (ServerlessError msg), [], mkScript [] [])) /\
  validateAthenaTable "orders"
    (mkTable None (Some "orders.sql") (Some "s3://o/") (Some "orders") None None)
    (mkScript [] []) =
    (Fulfilled tt, [EvLog (msg_no_database "orders")], mkScript [] []).
Proof.
  split; [| split; [| split; [| split]]].
  - destruct (validateAthenaTable_rejects Script "orders" empty_table
                (mkScript [] [])) as (H & _).
    apply H; reflexivity.
  - destruct (validateAthenaTable_rejects Script "orders"
                (mkTable (Some "CREATE") (Some "orders.sql") (Some "s3://o/")
                   (Some "orders") None None) (mkScript [] []))
      as (_ & H & _).
    apply H; reflexivity.
  - destruct (validateAthenaTable_rejects Script "orders"
                (mkTable (Some "CREATE") None None (Some "orders") None None)
                (mkScript [] [])) as (_ & _ & _ & H & _).
    apply H; reflexivity.
  - destruct (validateAthenaTable_rejects Script "orders"
                (mkTable (Some "CREATE") None (Some "s3://o/") (Some "") None None)
                (mkScript [] [])) as (_ & _ & _ & _ & H & _).
    apply H; reflexivity.
  - destruct (validateAthenaTable_rejects Script "orders"
                (mkTable None (Some "orders.sql") (Some "s3://o/") (Some "orders")
                   None None) (mkScript [] [])) as (_ & _ & _ & _ & _ & H & _).
    apply H; reflexivity.
Defined.

(** ** One table *)

Lemma carry_not_fulfilled {A B : Type} (c : Completion A) (b : B) :
  carry c <> Fulfilled b.
Proof. destruct c; discriminate. Qed.

(** The events of [m.then(f)] are those of [m] and then those of [f],
    which has none when [m] is not fulfilled. *)
Lemma then_extends {Svc A B : Type} (m : M Svc A) (f : A -> M Svc B) s c tr s' :
  then_ m f s = (c, tr, s') ->
  exists c1 tr1 s1 ext,
    m s = (c1, tr1, s1) /\ tr = (tr1 ++ ext)%list /\
    ((forall a, c1 <> Fulfilled a) ->
     ext = [] /\ s' = s1 /\ forall b, c <> Fulfilled b).
Proof.
  intros H. apply then_inv in H as [(a & tr1 & s1 & c2 & tr2 & Hm & Hf & -> & ->)
                                   | (c1 & Hm & N & ->)].
  - exists (Fulfilled a), tr1, s1, tr2.
    split; [exact Hm | split; [reflexivity|]]. intros N. now elim (N a).
  - exists c1, tr, s', []. rewrite app_nil_r.
    split; [exact Hm | split; [reflexivity|]]. intros _.
    split; [reflexivity | split; [reflexivity|]].
    intros b. apply carry_not_fulfilled.
Qed.

Section OneTable.

Context {Svc : Type} (athena : Athena Svc) (files : Files).

Lemma wait_not_thrown fuel :
  forall id s c tr s',
    waitForAthenaQuery athena fuel id s = (c, tr, s') -> settle c = c.
Proof.
  induction fuel as [|fuel IH]; intros id s c tr s' H; simpl in H.
  - now injection H as <- <- <-.
  - destruct (getQueryExecution athena id s) as [[e|state] s1].
    + now injection H as <- <- <-.
    + destruct (isQueryComplete_switch id state).
      * now injection H as <- <- <-.
      * destruct (waitForAthenaQuery athena fuel id s1) as [[c1 tr1] s2] eqn:W.
        injection H as <- <- <-. now apply (IH _ _ _ _ _ W).
      * now injection H as <- <- <-.
Qed.

(** [deleteAthenaTable], step by step: the log, the submission of the
    drop, and the poller on the id that came back. *)
Lemma delete_run fuel tableName table ifExists s :
  deleteAthenaTable athena fuel tableName table ifExists s =
  let (r, s1) := startQueryExecution athena (drop_params (flag ifExists) table) s in
  match r with
  | inl e =>
      (Rejected e,
       [EvLog (msg_removing tableName table);
        EvStart (drop_params (flag ifExists) table) r], s1)
  | inr id =>
      let '(c, tr, s2) := waitForAthenaQuery athena fuel id s1 in
      (c, EvLog (msg_removing tableName table)
          :: EvStart (drop_params (flag ifExists) table) r :: tr, s2)
  end.
Proof.
  unfold deleteAthenaTable, bind, then_, log, emit, athena_startQueryExecution.
  fold (flag ifExists). fold (drop_params (flag ifExists) table).
  fold (msg_removing tableName table).
  destruct (startQueryExecution athena (drop_params (flag ifExists) table) s)
    as [[e|id] s1]; [reflexivity|].
  destruct (waitForAthenaQuery athena fuel id s1) as [[c tr] s2] eqn:W.
  simpl. now rewrite (wait_not_thrown _ _ _ _ _ _ W).
Qed.

(** Its events: one submission, that of the drop, then status checks; it
    is fulfilled only after a check that saw SUCCEEDED. *)
Lemma delete_shape fuel tableName table ifExists s c tr s' :
  deleteAthenaTable athena fuel tableName table ifExists s = (c, tr, s') ->
  exists r polls,
    tr = EvLog (msg_removing tableName table)
         :: EvStart (drop_params (flag ifExists) table) r :: polls /\
    submitted polls = [] /\
    (forall e, c <> Thrown e) /\
    (forall v, c = Fulfilled v ->
       exists before,
         r = inr v /\ polls = (before ++ [EvStatus v (inr "SUCCEEDED")])%list).
Proof.
  rewrite delete_run.
  destruct (startQueryExecution athena (drop_params (flag ifExists) table) s)
    as [[e|id] s1].
  - intros H. injection H as <- <- <-. exists (inl e), [].
    repeat split; discriminate.
  - destruct (waitForAthenaQuery athena fuel id s1) as [[c1 tr1] s2] eqn:W.
    intros H. injection H as <- <- <-. exists (inr id), tr1.
    repeat split.
    + now apply (wait_submits_nothing athena _ _ _ _ _ _ W).
    + intros e ->. pose proof (wait_not_thrown _ _ _ _ _ _ W). discriminate.
    + intros v ->. destruct (wait_fulfilled athena _ _ _ _ _ _ W) as [-> [b ->]].
      now exists b.
Qed.

(** [createAthenaTable] on a valid definition: the events of the
    validation, those of the drop, and then whatever the rest of the chain
    does, which is nothing unless the drop was fulfilled. *)
Lemma create_shape fuel tableName table s c tr s' :
  valid table = true ->
  createAthenaTable athena files fuel tableName table s = (c, tr, s') ->
  exists r polls ext,
    tr = (validation_log tableName table
          ++ EvLog (msg_removing tableName table)
             :: EvStart (drop_params true table) r :: polls ++ ext)%list /\
    submitted polls = [] /\
    (ext <> [] ->
     exists id before,
       r = inr id /\ polls = (before ++ [EvStatus id (inr "SUCCEEDED")])%list).
Proof.
  intros V H. unfold createAthenaTable in H.
  apply then_extends in H as (c4 & tr4 & s4 & e4 & H & -> & N4).
  apply then_extends in H as (c3 & tr3 & s3 & e3 & H & -> & N3).
  apply then_extends in H as (c2 & tr2 & s2 & e2 & H & -> & N2).
  apply then_extends in H as (c1 & tr1 & s1 & e1 & H & -> & N1).
  apply then_inv in H as [(a & tr0 & s0 & cd & trd & Hv & Hd & -> & ->)
                         | (c0 & Hv & N & _)].
  2:{ rewrite (validate_valid _ _ _ V) in Hv. injection Hv as <- _ _.
      now elim (N tt). }
  rewrite (validate_valid _ _ _ V) in Hv. injection Hv as _ <- <-.
  destruct (delete_shape _ _ _ _ _ _ _ _ Hd) as (r & polls & -> & Hs & Ht & Hf).
  exists r, polls, (e1 ++ e2 ++ e3 ++ e4)%list. repeat split.
  - now rewrite <- !app_assoc.
  - exact Hs.
  - intros NE.
    destruct cd as [v|e|e| |];
      [ destruct (Hf v eq_refl) as (before & -> & ->); now exists v, before
      | | now elim (Ht e) | | ];
      exfalso; apply NE;
      (destruct N1 as (-> & -> & N1); [discriminate|]);
      (destruct N2 as (-> & -> & N2); [exact N1|]);
      (destruct N3 as (-> & -> & N3); [exact N2|]);
      (destruct N4 as (-> & -> & N4); [exact N3|]); reflexivity.
Qed.

(** On a definition that is not valid, [createAthenaTable] throws what the
    validation throws, before anything else. *)
Lemma create_invalid fuel tableName table :
  valid table = false ->
  exists msg, forall s,
    validateAthenaTable tableName table s = (Thrown (ServerlessError msg), [], s) /\
    createAthenaTable athena files fuel tableName table s =
    (Thrown (ServerlessError msg), [], s).
Proof.
  intros V. destruct (validate_invalid tableName table V) as [msg E].
  exists msg. intros s. split; [apply E|].
  unfold createAthenaTable, then_. now rewrite E.
Qed.

End OneTable.

(** ** Batches *)

Section Batches.

Context {Svc A B : Type} (op : A -> M Svc B).

Lemma drainQueue_cons item rest s :
  drainQueue op (item :: rest) s =
  match op item s with
  | (Fulfilled _, tr1, s1) =>
      let '(c, tr2, s2) := drainQueue op rest s1 in (settle c, (tr1 ++ tr2)%list, s2)
  | (c, tr1, s1) => (carry (settle c), tr1, s1)
  end.
Proof.
  simpl. unfold then_, tryCatch.
  destruct (op item s) as [[c tr1] s1]. now destruct c.
Qed.

(** When every call is fulfilled, so is the whole. *)
Lemma drainQueue_completed order s tr s' :
  Completed op order s tr s' -> drainQueue op order s = (Fulfilled tt, tr, s').
Proof.
  induction 1 as [s | item rest s v tr1 s1 tr2 s2 H _ IH].
  - reflexivity.
  - rewrite drainQueue_cons, H, IH. reflexivity.
Qed.

(** The first call that fails ends the whole: its events are the last, the
    service stays as that call left it, and the elements after it are not
    looked at. *)
Lemma drainQueue_aborts done failing later s tr0 s0 c1 tr1 s1 :
  Completed op done s tr0 s0 ->
  op failing s0 = (c1, tr1, s1) ->
  fulfilled c1 = false ->
  drainQueue op (done ++ failing :: later) s =
  (carry (settle c1), (tr0 ++ tr1)%list, s1).
Proof.
  intros C. revert failing later c1 tr1 s1.
  induction C as [s | item rest s v tr1' s1' tr2 s2 H _ IH];
    intros failing later c1 tr1 s1 F N.
  - simpl app. rewrite drainQueue_cons, F. now destruct c1.
  - simpl app. rewrite drainQueue_cons, H, (IH _ later _ _ _ F N).
    rewrite app_assoc. now destruct c1.
Qed.

(** Every submission of the whole is a submission of one of the calls. *)
Lemma drainQueue_submitted (P : StartParams -> Prop) order :
  (forall item s c tr s',
     In item order -> op item s = (c, tr, s') -> Forall P (submitted tr)) ->
  forall s c tr s',
    drainQueue op order s = (c, tr, s') -> Forall P (submitted tr).
Proof.
  induction order as [|item rest IH]; intros Hop s c tr s' H.
  - injection H as <- <- <-. constructor.
  - rewrite drainQueue_cons in H.
    destruct (op item s) as [[c1 tr1] s1] eqn:E.
    assert (Forall P (submitted tr1)) as H1
      by (apply (Hop item s c1 tr1 s1); [now left | exact E]).
    destruct c1; try (now injection H as <- <- <-).
    destruct (drainQueue op rest s1) as [[c2 tr2] s2] eqn:R.
    injection H as <- <- <-. rewrite submitted_app. apply Forall_app. split.
    + exact H1.
    + apply (IH (fun i s c tr s' Hi => Hop i s c tr s' (or_intror Hi)) _ _ _ _ R).
Qed.

End Batches.

Lemma queue_push_all {A : Type} (rest queue : list A) :
  fold_left queue_push rest queue = (rev rest ++ queue)%list.
Proof.
  revert queue. induction rest as [|x rest IH]; intros queue; [reflexivity|].
  simpl. rewrite IH. unfold queue_push. now rewrite <- app_assoc.
Qed.

(** The calls of [Promise.map] are those of a queue that holds the first
    element and then the others from the last. *)
Lemma Promise_map_1_run {Svc A B : Type} (input : list A) (mapper : A -> M Svc B) :
  Promise_map_1 input mapper = drainQueue mapper (map_order input).
Proof.
  destruct input as [|first rest]; [reflexivity|].
  unfold Promise_map_1, map_order. rewrite queue_push_all, app_nil_r.
  reflexivity.
Qed.

Lemma map_order_small {A : Type} (input : list A) :
  length input <= 2 -> map_order input = input.
Proof.
  destruct input as [|a [|b [|c input]]]; simpl; try reflexivity; lia.
Qed.

Lemma map_order_In {A : Type} (input : list A) (x : A) :
  In x (map_order input) <-> In x input.
Proof.
  destruct input as [|a input]; simpl; [tauto|].
  now rewrite <- in_rev.
Qed.

Section Tables.

Context {Svc : Type} (athena : Athena Svc) (files : Files) (fuel : nat).

Lemma createAthenaTables_run tables s :
  createAthenaTables athena files fuel tables s =
  match drainQueue (create_entry athena files fuel) (map_order tables) s with
  | (Fulfilled _, tr, s1) =>
      (Fulfilled tt, (tr ++ [EvLog "Athena tables created successfully."])%list, s1)
  | (c, tr, s1) => (carry c, tr, s1)
  end.
Proof.
  unfold createAthenaTables, Js.Object_entries.
  rewrite Promise_map_1_run. unfold then_.
  change (fun tableEntry : string * Table =>
            createAthenaTable athena files fuel (fst tableEntry) (snd tableEntry))
    with (create_entry athena files fuel).
  destruct (drainQueue _ (map_order tables) s) as [[c tr] s1].
  now destruct c.
Qed.

Lemma deleteAthenaTables_run tables s :
  deleteAthenaTables athena fuel tables s =
  match drainQueue (delete_entry athena fuel) (map_order tables) s with
  | (Fulfilled _, tr, s1) =>
      (Fulfilled tt, (tr ++ [EvLog "Athena tables deleted successfully."])%list, s1)
  | (c, tr, s1) => (carry c, tr, s1)
  end.
Proof.
  unfold deleteAthenaTables, Js.Object_entries.
  rewrite Promise_map_1_run. unfold then_.
  change (fun tableEntry : string * Table =>
            deleteAthenaTable athena fuel (fst tableEntry) (snd tableEntry) None)
    with (delete_entry athena fuel).
  destruct (drainQueue _ (map_order tables) s) as [[c tr] s1].
  now destruct c.
Qed.

End Tables.

(** What a batch returns when one of its operations fails. *)
Lemma createAthenaTables_aborts {Svc : Type} (athena : Athena Svc) (files : Files)
    fuel tables done failing later s tr0 s0 c1 tr1 s1 e :
  map_order tables = (done ++ failing :: later)%list ->
  Completed (create_entry athena files fuel) done s tr0 s0 ->
  create_entry athena files fuel failing s0 = (c1, tr1, s1) ->
  c1 = Rejected e \/ c1 = Thrown e ->
  createAthenaTables athena files fuel tables s =
  (Rejected e, (tr0 ++ tr1)%list, s1).
Proof.
  intros O C F E. rewrite createAthenaTables_run, O.
  rewrite (drainQueue_aborts _ _ _ later _ _ _ _ _ _ C F);
    destruct E as [-> | ->]; reflexivity.
Qed.

Lemma deleteAthenaTables_aborts {Svc : Type} (athena : Athena Svc)
    fuel tables done failing later s tr0 s0 c1 tr1 s1 e :
  map_order tables = (done ++ failing :: later)%list ->
  Completed (delete_entry athena fuel) done s tr0 s0 ->
  delete_entry athena fuel failing s0 = (c1, tr1, s1) ->
  c1 = Rejected e \/ c1 = Thrown e ->
  deleteAthenaTables athena fuel tables s =
  (Rejected e, (tr0 ++ tr1)%list, s1).
Proof.
  intros O C F E. rewrite deleteAthenaTables_run, O.
  rewrite (drainQueue_aborts _ _ _ later _ _ _ _ _ _ C F);
    destruct E as [-> | ->]; reflexivity.
Qed.

(** C4, as the code has it.  Both batches carry out their operations one
    at a time, each from the state of the service the one before left, in
    this order: the first entry of the mapping, then the other entries from
    the last to the second, which is the order of the mapping when it has
    at most two entries.  The first operation that fails ends the batch:
    the batch is rejected with its error, the events of the batch are those
    of the operations completed before and of the failing one, the service
    is left as the failing operation left it, and nothing is done for the
    entries that come after in this order.  When every operation is
    fulfilled the batch logs its success and is fulfilled. *)
Theorem batch_aborts_on_first_failure :
  forall (Svc : Type) (athena : Athena Svc) (files : Files) (fuel : nat)
         (first : string * Table) (others : list (string * Table)),
    let tables := first :: others in
    (length tables <= 2 -> first :: rev others = tables) /\
    (forall done failing later s tr0 s0 c1 tr1 s1 e,
       first :: rev others = (done ++ failing :: later)%list ->
       Completed (create_entry athena files fuel) done s tr0 s0 ->
       create_entry athena files fuel failing s0 = (c1, tr1, s1) ->
       c1 = Rejected e \/ c1 = Thrown e ->
       createAthenaTables athena files fuel tables s =
       (Rejected e, (tr0 ++ tr1)%list, s1)) /\
    (forall done failing later s tr0 s0 c1 tr1 s1 e,
       first :: rev others = (done ++ failing :: later)%list ->
       Completed (delete_entry athena fuel) done s tr0 s0 ->
       delete_entry athena fuel failing s0 = (c1, tr1, s1) ->
       c1 = Rejected e \/ c1 = Thrown e ->
       deleteAthenaTables athena fuel tables s =
       (Rejected e, (tr0 ++ tr1)%list, s1)) /\
    (forall s tr s',
       Completed (create_entry athena files fuel) (first :: rev others) s tr s' ->
       createAthenaTables athena files fuel tables s =
       (Fulfilled tt,
        (tr ++ [EvLog "Athena tables created successfully."])%list, s')) /\
    (forall s tr s',
       Completed (delete_entry athena fuel) (first :: rev others) s tr s' ->
       deleteAthenaTables athena fuel tables s =
       (Fulfilled tt,
        (tr ++ [EvLog "Athena tables deleted successfully."])%list, s')).
Proof.
  intros Svc athena files fuel first others tables.
  split; [| split; [| split; [| split]]].
  - intros L. apply (map_order_small tables L).
  - intros done failing later s tr0 s0 c1 tr1 s1 e O C F E.
    exact (createAthenaTables_aborts athena files fuel tables done failing later
             s tr0 s0 c1 tr1 s1 e O C F E).
  - intros done failing later s tr0 s0 c1 tr1 s1 e O C F E.
    exact (deleteAthenaTables_aborts athena fuel tables done failing later
             s tr0 s0 c1 tr1 s1 e O C F E).
  - intros s tr s' C. rewrite createAthenaTables_run.
    change (map_order tables) with (first :: rev others).
    now rewrite (drainQueue_completed _ _ _ _ _ C).
  - intros s tr s' C. rewrite deleteAthenaTables_run.
    change (map_order tables) with (first :: rev others).
    now rewrite (drainQueue_completed _ _ _ _ _ C).
Qed.

Lemma batch_aborts_on_first_failure_witness :
  (exists tr s1,
     createAthenaTables scripted no_files 5
       [("a", inline_table "ta" "CREATE EXTERNAL TABLE ta"); ("b", empty_table)]
       (mkScript [inr "q-1"; inr "q-2"] (states ["SUCCEEDED"; "SUCCEEDED"])) =
     (Rejected (ServerlessError (msg_no_ddl "b")), tr, s1)) /\
  (exists tr s1,
     deleteAthenaTables scripted 5 three_tables third_refused =
     (Rejected (AwsError "InvalidRequestException"), tr, s1)) /\
  (exists tr s1,
     deleteAthenaTables scripted 5 three_tables
       (mkScript [inr "q-1"; inr "q-2"; inr "q-3"]
          (states ["SUCCEEDED"; "SUCCEEDED"; "SUCCEEDED"])) =
     (Fulfilled tt, tr, s1)).
Proof.
  split; [| split].
  - destruct (batch_aborts_on_first_failure Script scripted no_files 5
                ("a", inline_table "ta" "CREATE EXTERNAL TABLE ta")
                [("b", empty_table)]) as (_ & H & _).
    eexists. eexists.
    eapply (H [("a", inline_table "ta" "CREATE EXTERNAL TABLE ta")]
              ("b", empty_table) []).
    + reflexivity.
    + eapply Completed_cons; [reflexivity | apply Completed_nil].
    + reflexivity.
    + right. reflexivity.
  - destruct (batch_aborts_on_first_failure Script scripted no_files 5
                ("a", inline_table "ta" "CREATE EXTERNAL TABLE ta")
                [("b", inline_table "tb" "CREATE EXTERNAL TABLE tb");
                 ("c", inline_table "tc" "CREATE EXTERNAL TABLE tc")])
      as (_ & _ & H & _).
    eexists. eexists.
    eapply (H [("a", inline_table "ta" "CREATE EXTERNAL TABLE ta");
               ("c", inline_table "tc" "CREATE EXTERNAL TABLE tc")]
              ("b", inline_table "tb" "CREATE EXTERNAL TABLE tb") []).
    + reflexivity.
    + eapply Completed_cons;
        [reflexivity
        | eapply Completed_cons; [reflexivity | apply Completed_nil]].
    + reflexivity.
    + left. reflexivity.
  - destruct (batch_aborts_on_first_failure Script scripted no_files 5
                ("a", inline_table "ta" "CREATE EXTERNAL TABLE ta")
                [("b", inline_table "tb" "CREATE EXTERNAL TABLE tb");
                 ("c", inline_table "tc" "CREATE EXTERNAL TABLE tc")])
      as (_ & _ & _ & _ & H).
    eexists. eexists. eapply H.
    eapply Completed_cons;
      [reflexivity
      | eapply Completed_cons;
        [reflexivity
        | eapply Completed_cons; [reflexivity | apply Completed_nil]]].
Defined.

(** C4 as the claim states it fails on three tables [a], [b], [c] when the
    third submission is refused: the drops are submitted for [a], then
    [c], then [b], so the failing operation is that of [b] and the
    operation of [c], which comes after [b] in the mapping, has been
    carried out; the submissions are no initial part of the mapping. *)
Lemma batch_order_counterexample :
  fst (fst (deleteAthenaTables scripted 5 three_tables third_refused)) =
    Rejected (AwsError "InvalidRequestException") /\
  queries (deleteAthenaTables scripted 5 three_tables third_refused) =
    [Some "DROP TABLE  ta"; Some "DROP TABLE  tc"; Some "DROP TABLE  tb"] /\
  ~ (exists k,
       queries (deleteAthenaTables scripted 5 three_tables third_refused) =
       firstn k (map (fun entry => Some (drop_query false (snd entry)))
                     three_tables)).
Proof.
  split; [reflexivity | split; [reflexivity|]].
  intros [k H]. vm_compute in H.
  destruct k as [|[|[|[|k]]]]; discriminate.
Qed.

(** ** Create and delete *)

Lemma valid_TableName (table : Table) :
  valid table = true -> exists tn, TableName table = Some tn.
Proof.
  unfold valid. intros V. apply andb_true_iff in V as [_ V].
  destruct (TableName table) as [tn|]; [now exists tn | discriminate].
Qed.

(** C5.  On a valid definition the first remote call of
    [createAthenaTable] is the submission of DROP TABLE IF EXISTS with the
    definition's TableName, and any submission after it, the one of the
    CREATE among them, comes after a status check on the execution of the
    drop that saw SUCCEEDED, with no submission in between. *)
Theorem createAthenaTable_drop_precedes_create :
  forall (Svc : Type) (athena : Athena Svc) (files : Files) (fuel : nat)
         (tableName : string) (table : Table) (s : Svc) c tr s',
    valid table = true ->
    createAthenaTable athena files fuel tableName table s = (c, tr, s') ->
    exists tn r rest,
      TableName table = Some tn /\
      QueryString (drop_params true table) = Some ("DROP TABLE IF EXISTS " ++ tn) /\
      tr = (validation_log tableName table
            ++ EvLog (msg_removing tableName table)
               :: EvStart (drop_params true table) r :: rest)%list /\
      remote_calls (validation_log tableName table) = [] /\
      (submitted rest <> [] ->
       exists id polls rest',
         r = inr id /\
         rest = (polls ++ EvStatus id (inr "SUCCEEDED") :: rest')%list /\
         submitted polls = []).
Proof.
  intros Svc athena files fuel tableName table s c tr s' V H.
  destruct (valid_TableName table V) as [tn Htn].
  destruct (create_shape athena files _ _ _ _ _ _ _ V H)
    as (r & polls & ext & -> & Hs & Hext).
  exists tn, r, (polls ++ ext)%list. repeat split.
  - exact Htn.
  - unfold drop_params, drop_query. simpl. now rewrite Htn.
  - unfold validation_log. now destruct (Js.truthy (DatabaseName table)).
  - intros N. rewrite submitted_app, Hs in N. simpl in N.
    destruct Hext as (id & before & -> & ->); [now intros -> |].
    exists id, before, ext. repeat split.
    + now rewrite <- app_assoc.
    + rewrite submitted_app in Hs. now apply app_eq_nil in Hs as [Hs _].
Qed.

Lemma createAthenaTable_drop_precedes_create_witness :
  exists tn r rest,
    TableName (inline_table "orders" "CREATE EXTERNAL TABLE orders") = Some tn /\
    QueryString (drop_params true (inline_table "orders" "CREATE EXTERNAL TABLE orders")) =
      Some ("DROP TABLE IF EXISTS " ++ tn) /\
    snd (fst (createAthenaTable scripted no_files 5 "t1"
                (inline_table "orders" "CREATE EXTERNAL TABLE orders")
                (mkScript [inr "q-1"; inr "q-2"]
                   (states ["RUNNING"; "SUCCEEDED"; "SUCCEEDED"])))) =
      (validation_log "t1" (inline_table "orders" "CREATE EXTERNAL TABLE orders")
       ++ EvLog (msg_removing "t1" (inline_table "orders" "CREATE EXTERNAL TABLE orders"))
          :: EvStart (drop_params true (inline_table "orders" "CREATE EXTERNAL TABLE orders")) r
          :: rest)%list /\
    remote_calls
      (validation_log "t1" (inline_table "orders" "CREATE EXTERNAL TABLE orders")) = [] /\
    (submitted rest <> [] ->
     exists id polls rest',
       r = inr id /\
       rest = (polls ++ EvStatus id (inr "SUCCEEDED") :: rest')%list /\
       submitted polls = []).
Proof.
  eapply (createAthenaTable_drop_precedes_create Script scripted no_files 5 "t1"
            (inline_table "orders" "CREATE EXTERNAL TABLE orders")
            (mkScript [inr "q-1"; inr "q-2"]
               (states ["RUNNING"; "SUCCEEDED"; "SUCCEEDED"]))).
  - reflexivity.
  - reflexivity.
Defined.

(** On the run of the witness the CREATE is submitted indeed, second. *)
Example createAthenaTable_submits_both :
  queries (createAthenaTable scripted no_files 5 "t1"
             (inline_table "orders" "CREATE EXTERNAL TABLE orders")
             (mkScript [inr "q-1"; inr "q-2"]
                (states ["RUNNING"; "SUCCEEDED"; "SUCCEEDED"]))) =
  [Some "DROP TABLE IF EXISTS orders"; Some "CREATE EXTERNAL TABLE orders"].
Proof. reflexivity. Qed.

(** C9.  On a definition that is not valid [createAthenaTable] fails with
    the error of [validateAthenaTable] and nothing has happened: no event,
    the service as it was.  So does the command for that one table, after
    its log line, and so does a batch when the turn of the definition
    comes: it is rejected with that error and nothing is submitted for the
    definition. *)
Theorem createAthenaTable_validates_first :
  forall (Svc : Type) (athena : Athena Svc) (files : Files) (fuel : nat)
         (tableName : string) (table : Table),
    valid table = false ->
    exists msg,
      (forall s : Svc,
         validateAthenaTable tableName table s =
         (Thrown (ServerlessError msg), [], s)) /\
      (forall s,
         createAthenaTable athena files fuel tableName table s =
         (Thrown (ServerlessError msg), [], s)) /\
      (forall this s,
         options_table this = Some tableName -> tableName <> "" ->
         Js.get (getAthenaTables this) tableName = Some table ->
         deployAthenaTablesDeploy athena files this fuel s =
         (Thrown (ServerlessError msg),
          [EvLog "Creating Athena table [object Object]..."], s)) /\
      (forall tables done later s tr0 s0,
         map_order tables = (done ++ (tableName, table) :: later)%list ->
         Completed (create_entry athena files fuel) done s tr0 s0 ->
         createAthenaTables athena files fuel tables s =
         (Rejected (ServerlessError msg), tr0, s0)).
Proof.
  intros Svc athena files fuel tableName table V.
  destruct (create_invalid athena files fuel tableName table V) as [msg E].
  exists msg. split; [| split; [| split]].
  - intros s. apply E.
  - intros s. apply E.
  - intros this s O N G. unfold deployAthenaTablesDeploy.
    rewrite O. unfold Js.truthy, Js.tmpl, Js.lookup.
    apply String.eqb_neq in N. rewrite N, G.
    cbn [definition_of Js.tmpl_member].
    unfold bind, returning, log, emit. simpl.
    destruct (E s) as [_ ->]. reflexivity.
  - intros tables done later s tr0 s0 O C.
    rewrite (createAthenaTables_aborts athena files fuel tables done
               (tableName, table) later s tr0 s0
               (Thrown (ServerlessError msg)) [] s0 (ServerlessError msg) O C).
    + now rewrite app_nil_r.
    + apply E.
    + now right.
Qed.

Lemma createAthenaTable_validates_first_witness :
  exists msg,
    (forall s : Script,
       validateAthenaTable "orders" empty_table s =
       (Thrown (ServerlessError msg), [], s)) /\
    (forall s,
       createAthenaTable scripted no_files 5 "orders" empty_table s =
       (Thrown (ServerlessError msg), [], s)) /\
    (forall this s,
       options_table this = Some "orders" -> "orders" <> "" ->
       Js.get (getAthenaTables this) "orders" = Some empty_table ->
       deployAthenaTablesDeploy scripted no_files this 5 s =
       (Thrown (ServerlessError msg),
        [EvLog "Creating Athena table [object Object]..."], s)) /\
    (forall tables done later s tr0 s0,
       map_order tables = (done ++ ("orders", empty_table) :: later)%list ->
       Completed (create_entry scripted no_files 5) done s tr0 s0 ->
       createAthenaTables scripted no_files 5 tables s =
       (Rejected (ServerlessError msg), tr0, s0)).
Proof.
  apply (createAthenaTable_validates_first Script scripted no_files 5
           "orders" empty_table).
  reflexivity.
Defined.

(** On the empty definition nothing is called, whatever the service would
    have answered. *)
Example createAthenaTable_invalid_run :
  createAthenaTable scripted no_files 5 "orders" empty_table
    (mkScript [inr "q-1"] (states ["SUCCEEDED"])) =
  (Thrown (ServerlessError (msg_no_ddl "orders")), [],
   mkScript [inr "q-1"] (states ["SUCCEEDED"])).
Proof. reflexivity. Qed.

Lemma delete_submitted {Svc : Type} (athena : Athena Svc)
    fuel tableName table ifExists s c tr s' :
  deleteAthenaTable athena fuel tableName table ifExists s = (c, tr, s') ->
  submitted tr = [drop_params (flag ifExists) table].
Proof.
  intros H.
  destruct (delete_shape athena _ _ _ _ _ _ _ _ H) as (r & polls & -> & Hs & _).
  simpl. now rewrite Hs.
Qed.

Lemma drop_query_flag (table : Table) (b : bool) :
  drop_query b table = "DROP TABLE IF EXISTS " ++ Js.tmpl (TableName table) <->
  b = true.
Proof.
  destruct b; unfold drop_query; split; intros H;
    try reflexivity; discriminate.
Qed.

(** C7.  [deleteAthenaTable] submits one query, whose text is DROP TABLE
    IF EXISTS and the TableName exactly when the flag is true; without the
    flag it is false and the text is DROP TABLE and the TableName.  The
    command that removes one table and the batch that removes all of them
    pass no flag, and [createAthenaTable] passes true for its first
    submission. *)
Theorem deleteAthenaTable_if_exists_flag :
  forall (Svc : Type) (athena : Athena Svc) (files : Files) (fuel : nat)
         (tableName : string) (table : Table),
    (forall b,
       QueryString (drop_params b table) =
       Some ("DROP TABLE IF EXISTS " ++ Js.tmpl (TableName table)) <->
       b = true) /\
    QueryString (drop_params false table) =
      Some ("DROP TABLE  " ++ Js.tmpl (TableName table)) /\
    (forall ifExists s c tr s',
       deleteAthenaTable athena fuel tableName table ifExists s = (c, tr, s') ->
       submitted tr = [drop_params (flag ifExists) table]) /\
    (forall s c tr s',
       deleteAthenaTable athena fuel tableName table None s = (c, tr, s') ->
       submitted tr = [drop_params false table]) /\
    (forall this s c tr s',
       options_table this = Some tableName -> tableName <> "" ->
       Js.get (getAthenaTables this) tableName = Some table ->
       removeAthenaTablesRemove athena this fuel s = (c, tr, s') ->
       submitted tr = [drop_params false table]) /\
    (forall tables s c tr s',
       deleteAthenaTables athena fuel tables s = (c, tr, s') ->
       Forall (fun p => exists entry,
                 In entry tables /\ p = drop_params false (snd entry))
              (submitted tr)) /\
    (forall s c tr s',
       valid table = true ->
       createAthenaTable athena files fuel tableName table s = (c, tr, s') ->
       exists later, submitted tr = drop_params true table :: later).
Proof.
  intros Svc athena files fuel tableName table.
  split; [| split; [| split; [| split; [| split; [| split]]]]].
  - intros b. unfold drop_params. cbn [QueryString].
    split.
    + intros H. apply (drop_query_flag table b). congruence.
    + intros ->. reflexivity.
  - reflexivity.
  - intros ifExists s c tr s' H. exact (delete_submitted athena _ _ _ _ _ _ _ _ H).
  - intros s c tr s' H. exact (delete_submitted athena _ _ _ _ _ _ _ _ H).
  - intros this s c tr s' O N G H. unfold removeAthenaTablesRemove in H.
    rewrite O in H. unfold Js.truthy, Js.tmpl, Js.lookup in H.
    apply String.eqb_neq in N. rewrite N, G in H.
    cbn [definition_of Js.tmpl_member] in H.
    unfold bind, returning, log, emit in H. simpl in H.
    destruct (deleteAthenaTable athena fuel tableName table None s)
      as [[c1 tr1] s1] eqn:D.
    apply delete_submitted in D.
    destruct c1; injection H as <- <- <-; exact D.
  - intros tables s c tr s' H. rewrite deleteAthenaTables_run in H.
    destruct (drainQueue (delete_entry athena fuel) (map_order tables) s)
      as [[c1 tr1] s1] eqn:R.
    assert (Forall (fun p => exists entry,
                      In entry tables /\ p = drop_params false (snd entry))
                   (submitted tr1)) as F.
    { apply (drainQueue_submitted (delete_entry athena fuel) _ (map_order tables))
        with (s := s) (c := c1) (s' := s1); [|exact R].
      intros item s0 c0 tr0 s0' I D. apply delete_submitted in D. rewrite D.
      constructor; [|constructor]. exists item. split; [|reflexivity].
      now apply map_order_In. }
    destruct c1; injection H as <- <- <-; try exact F.
    rewrite submitted_app. simpl. now rewrite app_nil_r.
  - intros s c tr s' V H.
    destruct (create_shape athena files _ _ _ _ _ _ _ V H)
      as (r & polls & ext & -> & Hs & _).
    exists (submitted ext). rewrite submitted_app. unfold validation_log.
    destruct (Js.truthy (DatabaseName table)); simpl;
      now rewrite submitted_app, Hs.
Qed.

Lemma deleteAthenaTable_if_exists_flag_witness :
  submitted (snd (fst (deleteAthenaTable scripted 5 "t1"
                         (inline_table "orders" "CREATE EXTERNAL TABLE orders")
                         (Some true)
                         (mkScript [inr "q-1"] (states ["SUCCEEDED"]))))) =
    [drop_params true (inline_table "orders" "CREATE EXTERNAL TABLE orders")] /\
  submitted (snd (fst (removeAthenaTablesRemove scripted
                         (mkPlugin
                            (Some [("t1", inline_table "orders" "CREATE EXTERNAL TABLE orders")])
                            (Some "t1")) 5
                         (mkScript [inr "q-1"] (states ["SUCCEEDED"]))))) =
    [drop_params false (inline_table "orders" "CREATE EXTERNAL TABLE orders")] /\
  (exists later,
     submitted (snd (fst (createAthenaTable scripted no_files 5 "t1"
                            (inline_table "orders" "CREATE EXTERNAL TABLE orders")
                            (mkScript [inr "q-1"; inr "q-2"]
                               (states ["SUCCEEDED"; "SUCCEEDED"]))))) =
     drop_params true (inline_table "orders" "CREATE EXTERNAL TABLE orders") :: later).
Proof.
  destruct (deleteAthenaTable_if_exists_flag Script scripted no_files 5 "t1"
              (inline_table "orders" "CREATE EXTERNAL TABLE orders"))
    as (_ & _ & H1 & _ & H2 & _ & H3).
  split; [| split].
  - apply (H1 (Some true) (mkScript [inr "q-1"] (states ["SUCCEEDED"]))
              (Fulfilled "q-1") _ (mkScript [] [])).
    reflexivity.
  - apply (H2 (mkPlugin
                 (Some [("t1", inline_table "orders" "CREATE EXTERNAL TABLE orders")])
                 (Some "t1"))
              (mkScript [inr "q-1"] (states ["SUCCEEDED"]))
              (Fulfilled (Some "q-1")) _ (mkScript [] [])).
    + reflexivity.
    + discriminate.
    + reflexivity.
    + reflexivity.
  - apply (H3 (mkScript [inr "q-1"; inr "q-2"] (states ["SUCCEEDED"; "SUCCEEDED"]))
              (Fulfilled "q-2") _ (mkScript [] [])); reflexivity.
Defined.

(** The two texts on a table named [orders]. *)
Example drop_query_texts :
  drop_query true (inline_table "orders" "") = "DROP TABLE IF EXISTS orders" /\
  drop_query false (inline_table "orders" "") = "DROP TABLE  orders".
Proof. split; reflexivity. Qed.

(** ** Substitutions *)

Lemma substitute_app (l1 l2 : Js.object string) (ddl : string) :
  substitute (l1 ++ l2)%list ddl = substitute l2 (substitute l1 ddl).
Proof. unfold substitute, Js.Object_entries. apply fold_left_app. Qed.

(** C3, as the code has it.  The substitutions are applied in the order of
    the mapping, each on the text the ones before it have left.  An entry
    (token, value) whose value has none of the patterns [$$], [$&], [$`],
    [$'] puts value in the place of the leftmost occurrence of [{token}]
    and leaves the other occurrences and the rest of the text; when
    [{token}] does not occur the text stays.  Without a mapping of substitutions the text is passed on
    as it is. *)
Theorem substitute_first_occurrence :
  forall (ddl : string),
    substitute [] ddl = ddl /\
    (forall token value rest,
       substitute ((token, value) :: rest) ddl =
       substitute rest (Js.replace ddl ("{" ++ token ++ "}") value)) /\
    (forall earlier later,
       substitute (earlier ++ later)%list ddl =
       substitute later (substitute earlier ddl)) /\
    (forall token value before after,
       Js.has_pattern value = false ->
       ddl = before ++ ("{" ++ token ++ "}") ++ after ->
       (forall before' after',
          ddl = before' ++ ("{" ++ token ++ "}") ++ after' ->
          String.length before <= String.length before') ->
       substitute [(token, value)] ddl = before ++ value ++ after) /\
    (forall token value,
       ~ Js.occurs ("{" ++ token ++ "}") ddl ->
       substitute [(token, value)] ddl = ddl) /\
    (forall (Svc : Type) (table : Table) (s : Svc),
       DDLSubstitutions table = None ->
       substituteDDL table (Some ddl) s = (Fulfilled (Some ddl), [], s)).
Proof.
  intros ddl. split; [| split; [| split; [| split; [| split]]]].
  - reflexivity.
  - reflexivity.
  - intros earlier later. apply substitute_app.
  - intros token value before after D E L.
    unfold substitute, Js.Object_entries. cbn [fold_left fst snd].
    now apply replace_first.
  - intros token value N.
    unfold substitute, Js.Object_entries. cbn [fold_left fst snd].
    now apply replace_absent.
  - intros Svc table s H. unfold substituteDDL. now rewrite H.
Qed.

Lemma substitute_first_occurrence_witness :
  substitute [("S3Location", "s3://bucket/path")]
    "LOCATION '{S3Location}' -- {S3Location}" =
    "LOCATION '" ++ "s3://bucket/path" ++ "' -- {S3Location}" /\
  substitute [("Missing", "x")] "LOCATION '{S3Location}' -- {S3Location}" =
    "LOCATION '{S3Location}' -- {S3Location}" /\
  substituteDDL (inline_table "orders" "LOCATION '{S3Location}'")
    (Some "LOCATION '{S3Location}' -- {S3Location}") (mkScript [] []) =
    (Fulfilled (Some "LOCATION '{S3Location}' -- {S3Location}"), [], mkScript [] []).
Proof.
  destruct (substitute_first_occurrence "LOCATION '{S3Location}' -- {S3Location}")
    as (_ & _ & _ & H1 & H2 & H3).
  split; [| split].
  - apply (H1 "S3Location" "s3://bucket/path" "LOCATION '" "' -- {S3Location}").
    + reflexivity.
    + reflexivity.
    + intros before' after' E.
      do 10 (destruct before' as [|? before']; [discriminate E|];
             simpl in E; injection E as _ E).
      simpl. lia.
  - apply (H2 "Missing" "x").
    apply split_first_none. reflexivity.
  - apply (H3 Script). reflexivity.
Defined.

(** C3 as the claim states it fails on a value with a pattern: [$$] in
    the value comes out as one dollar, and [$&] as the placeholder
    itself. *)
Lemma substitute_dollar_counterexample :
  substitute [("S3Location", "s3://bucket/$$path")] "LOCATION '{S3Location}'" =
    "LOCATION 's3://bucket/$path'" /\
  substitute [("S3Location", "s3://bucket/$$path")] "LOCATION '{S3Location}'" <>
    "LOCATION '" ++ "s3://bucket/$$path" ++ "'" /\
  substitute [("S3Location", "$&")] "LOCATION '{S3Location}'" =
    "LOCATION '{S3Location}'".
Proof.
  split; [reflexivity | split; [discriminate | reflexivity]].
Qed.

(** ** The hooks *)

(** C2.  [validateAthenaTablesGlobal] never fails and never calls
    [validateAthenaTable]: with tables in the configuration it logs one
    line and is fulfilled with the entries, whatever they are.  On a
    configuration whose only definition is empty, which
    [validateAthenaTable] refuses, the hook is fulfilled. *)
Theorem validateAthenaTablesGlobal_accepts_anything :
  (forall (Svc : Type) (this : Plugin) (s : Svc),
     validateAthenaTablesGlobal this s =
     if (0 <? length (getAthenaTables this))%nat
     then (Fulfilled (Some (getAthenaTables this)),
           [EvLog "Validating Athena tables..."], s)
     else (Fulfilled None, [], s)) /\
  validateAthenaTable "orders" empty_table (mkScript [] []) =
    (Thrown (ServerlessError (msg_no_ddl "orders")), [], mkScript [] []) /\
  validateAthenaTablesGlobal (mkPlugin (Some [("orders", empty_table)]) None)
    (mkScript [] []) =
    (Fulfilled (Some [("orders", empty_table)]),
     [EvLog "Validating Athena tables..."], mkScript [] []).
Proof.
  split; [| split; reflexivity].
  intros Svc this s. unfold validateAthenaTablesGlobal, Js.Object_keys.
  rewrite length_map.
  destruct (0 <? length (getAthenaTables this))%nat; reflexivity.
Qed.

Lemma inherit_none (name : string) :
  ~ In name Js.prototype_keys -> Js.inherit name = None.
Proof.
  intros N. unfold Js.inherit.
  destruct (existsb (String.eqb name) Js.prototype_keys) eqn:E; [|reflexivity].
  apply existsb_exists in E as (key & I & E).
  apply String.eqb_eq in E. subst key. now elim N.
Qed.

Lemma inherit_some (name : string) :
  In name Js.prototype_keys -> exists i, Js.inherit name = Some i.
Proof.
  intros I. unfold Js.inherit.
  assert (existsb (String.eqb name) Js.prototype_keys = true) as ->.
  { apply existsb_exists. exists name. split; [exact I | apply String.eqb_refl]. }
  eexists. reflexivity.
Qed.

(** C8.  The table named on the command line is not in the configuration.
    When the name is no member of [Object.prototype] either, both commands
    are rejected with an error and nothing has happened; the message of
    the error is the same text for every name, with [undefined] where the
    name was meant.  When the name is a member of [Object.prototype]
    ([constructor], [toString], ...), the lookup finds that member and no
    command reports a missing table: the create command throws the error
    of the validation after one log line, and the remove command submits
    a drop whose text is DROP TABLE undefined. *)
Theorem table_not_found_message :
  forall (Svc : Type) (athena : Athena Svc) (files : Files) (fuel : nat)
         (this : Plugin) (name : string) (s : Svc),
    options_table this = Some name -> name <> "" ->
    Js.get (getAthenaTables this) name = None ->
    (~ In name Js.prototype_keys ->
     deployAthenaTablesDeploy athena files this fuel s =
       (Rejected (JsError "Athena table not found: undefined"), [], s) /\
     removeAthenaTablesRemove athena this fuel s =
       (Rejected (JsError "Athena table not found: undefined"), [], s)) /\
    (In name Js.prototype_keys ->
     (exists line,
        deployAthenaTablesDeploy athena files this fuel s =
        (Thrown (ServerlessError (msg_no_ddl name)), [EvLog line], s)) /\
     (forall c tr s',
        removeAthenaTablesRemove athena this fuel s = (c, tr, s') ->
        submitted tr = [drop_params false empty_table]) /\
     QueryString (drop_params false empty_table) = Some "DROP TABLE  undefined").
Proof.
  intros Svc athena files fuel this name s O N G.
  apply String.eqb_neq in N. split.
  - intros P. unfold deployAthenaTablesDeploy, removeAthenaTablesRemove.
    rewrite O. unfold Js.truthy, Js.tmpl, Js.lookup.
    rewrite N, G, (inherit_none name P). split; reflexivity.
  - intros P. destruct (inherit_some name P) as [i I].
    split; [| split; [| reflexivity]].
    + unfold deployAthenaTablesDeploy.
      rewrite O. unfold Js.truthy, Js.tmpl, Js.lookup. rewrite N, G, I.
      eexists. cbn [negb definition_of].
      unfold bind, returning, log, emit, createAthenaTable, then_.
      reflexivity.
    + intros c tr s' H. unfold removeAthenaTablesRemove in H.
      rewrite O in H. unfold Js.truthy, Js.tmpl, Js.lookup in H.
      rewrite N, G, I in H. cbn [negb definition_of] in H.
      unfold bind, returning, log, emit in H.
      change (deleteAthenaTable athena fuel name
                {| DDL := None; DDLFile := None; OutputLocation := None;
                   TableName := None; DatabaseName := None;
                   DDLSubstitutions := None |} None s)
        with (deleteAthenaTable athena fuel name empty_table None s) in H.
      destruct (deleteAthenaTable athena fuel name empty_table None s)
        as [[c1 tr1] s1] eqn:D.
      pose proof (delete_submitted athena _ _ _ _ _ _ _ _ D) as Sb.
      destruct c1; injection H as <- <- <-; exact Sb.
Qed.

Lemma table_not_found_message_witness :
  deployAthenaTablesDeploy scripted no_files
    (mkPlugin (Some [("users", inline_table "users" "CREATE EXTERNAL TABLE users")])
       (Some "orders")) 5 (mkScript [inr "q-1"] (states ["SUCCEEDED"])) =
    (Rejected (JsError "Athena table not found: undefined"), [],
     mkScript [inr "q-1"] (states ["SUCCEEDED"])) /\
  removeAthenaTablesRemove scripted
    (mkPlugin (Some [("users", inline_table "users" "CREATE EXTERNAL TABLE users")])
       (Some "orders")) 5 (mkScript [inr "q-1"] (states ["SUCCEEDED"])) =
    (Rejected (JsError "Athena table not found: undefined"), [],
     mkScript [inr "q-1"] (states ["SUCCEEDED"])) /\
  (exists line,
     deployAthenaTablesDeploy scripted no_files
       (mkPlugin (Some [("users", inline_table "users" "CREATE EXTERNAL TABLE users")])
          (Some "constructor")) 5 (mkScript [inr "q-1"] (states ["SUCCEEDED"])) =
     (Thrown (ServerlessError (msg_no_ddl "constructor")), [EvLog line],
      mkScript [inr "q-1"] (states ["SUCCEEDED"]))) /\
  submitted
    (snd (fst (removeAthenaTablesRemove scripted
                 (mkPlugin
                    (Some [("users", inline_table "users" "CREATE EXTERNAL TABLE users")])
                    (Some "constructor")) 5
                 (mkScript [inr "q-1"] (states ["SUCCEEDED"]))))) =
    [drop_params false empty_table].
Proof.
  destruct (table_not_found_message Script scripted no_files 5
              (mkPlugin (Some [("users", inline_table "users" "CREATE EXTERNAL TABLE users")])
                 (Some "orders")) "orders"
              (mkScript [inr "q-1"] (states ["SUCCEEDED"])) eq_refl
              ltac:(discriminate) eq_refl) as (H1 & _).
  destruct (table_not_found_message Script scripted no_files 5
              (mkPlugin (Some [("users", inline_table "users" "CREATE EXTERNAL TABLE users")])
                 (Some "constructor")) "constructor"
              (mkScript [inr "q-1"] (states ["SUCCEEDED"])) eq_refl
              ltac:(discriminate) eq_refl) as (_ & H2).
  destruct H1 as (D & R).
  { simpl. intuition discriminate. }
  destruct H2 as (D' & R' & _).
  { simpl. now left. }
  split; [exact D | split; [exact R | split; [exact D'|]]].
  apply (R' (Fulfilled (Some "q-1")) _ (mkScript [] [])). reflexivity.
Defined.

(** The remove command on the name [constructor], with no table of that
    name: the log line prints the function found, and the drop is
    submitted and, on a service that lets it through, fulfilled. *)
Example remove_constructor_run :
  removeAthenaTablesRemove scripted
    (mkPlugin (Some [("users", inline_table "users" "CREATE EXTERNAL TABLE users")])
       (Some "constructor")) 5 (mkScript [inr "q-1"] (states ["SUCCEEDED"])) =
  (Fulfilled (Some "q-1"),
   [EvLog "Removing Athena table function Object() { [native code] }...";
    EvLog "Removing Athena table constructor (undefined)...";
    EvStart
      {| QueryString := Some "DROP TABLE  undefined";
         ResultConfiguration_OutputLocation := None;
         QueryExecutionContext_Database := None |} (inr "q-1");
    EvStatus "q-1" (inr "SUCCEEDED")],
   mkScript [] []).
Proof. reflexivity. Qed.

(** ** More on the poller *)

Lemma settled_by_switch (id final : string) :
  final <> "RUNNING" -> final <> "QUEUED" ->
  match isQueryComplete_switch id final with
  | Resolve v => settled_by id final = Fulfilled v
  | Again _ => False
  | Reject reason => settled_by id final = Rejected (Reason reason)
  end.
Proof.
  intros N1 N2. unfold settled_by.
  destruct (String.eqb_spec final "SUCCEEDED") as [-> | N0].
  - reflexivity.
  - now rewrite (switch_other id final N0 N1 N2).
Qed.

(** X1.  When the service answers RUNNING or QUEUED [n] times and then a
    state that is neither, [waitForAthenaQuery] settles at check [n + 1],
    whatever larger bound it has: it is resolved with the id on SUCCEEDED
    and rejected with the state otherwise, it has asked [n + 1] times for
    the status of that id and waited [n] times 1000 ms. *)
Theorem waitForAthenaQuery_settles :
  forall (Svc : Type) (athena : Athena Svc) (id : string) (n : nat)
         (s s' s'' : Svc) (final : string) (extra : nat),
    Busy athena id s n s' ->
    getQueryExecution athena id s' = (inr final, s'') ->
    final <> "RUNNING" -> final <> "QUEUED" ->
    exists tr,
      waitForAthenaQuery athena (S n + extra) id s =
      (settled_by id final, tr, s'') /\
      checked tr = repeat id (S n) /\
      delays tr = repeat 1000 n /\
      submitted tr = [].
Proof.
  intros Svc athena id n s s' s'' final extra B. revert s'' final extra.
  induction B as [s | s state s1 n s' H R B IH]; intros s'' final extra F N1 N2.
  - pose proof (settled_by_switch id final N1 N2) as V.
    exists [EvStatus id (inr final)]. split; [| now repeat split].
    simpl. rewrite F. destruct (isQueryComplete_switch id final);
      [now rewrite V | now elim V | now rewrite V].
  - destruct (IH s'' final extra F N1 N2) as (tr & E & C & D & Sb).
    exists (EvStatus id (inr state) :: EvTimeout 1000 :: tr). split.
    + change (S (S n) + extra) with (S (S n + extra)).
      rewrite (wait_step_again athena _ _ _ _ _ H R). now rewrite E.
    + simpl. now rewrite C, D, Sb.
Qed.

Lemma waitForAthenaQuery_settles_witness :
  exists tr,
    waitForAthenaQuery scripted (S 2 + 7) "q-1"
      (mkScript [] (states ["QUEUED"; "RUNNING"; "CANCELLED"; "SUCCEEDED"])) =
    (settled_by "q-1" "CANCELLED", tr, mkScript [] (states ["SUCCEEDED"])) /\
    checked tr = repeat "q-1" (S 2) /\
    delays tr = repeat 1000 2 /\
    submitted tr = [].
Proof.
  apply (waitForAthenaQuery_settles Script scripted "q-1" 2
           (mkScript [] (states ["QUEUED"; "RUNNING"; "CANCELLED"; "SUCCEEDED"]))
           (mkScript [] (states ["CANCELLED"; "SUCCEEDED"]))).
  - eapply Busy_S; [reflexivity | now right |].
    eapply Busy_S; [reflexivity | now left |]. apply Busy_O.
  - reflexivity.
  - discriminate.
  - discriminate.
Defined.

(** X2.  When a status call is rejected, after any number of answers
    RUNNING or QUEUED, the promise of [waitForAthenaQuery] is left
    unsettled: the error of the call is not passed on and no further
    check is made.  A [deleteAthenaTable] whose drop was accepted stays
    unsettled with it. *)
Theorem waitForAthenaQuery_status_error_hangs :
  forall (Svc : Type) (athena : Athena Svc) (id : string) (n : nat)
         (s s' s'' : Svc) (e : Err) (extra : nat),
    Busy athena id s n s' ->
    getQueryExecution athena id s' = (inl e, s'') ->
    (exists tr,
       waitForAthenaQuery athena (S n + extra) id s = (Pending, tr, s'') /\
       checks tr = S n) /\
    (forall tableName table ifExists s0,
       startQueryExecution athena (drop_params (flag ifExists) table) s0 =
       (inr id, s) ->
       exists tr,
         deleteAthenaTable athena (S n + extra) tableName table ifExists s0 =
         (Pending, tr, s'')).
Proof.
  intros Svc athena id n s s' s'' e extra B F.
  assert (exists tr,
            waitForAthenaQuery athena (S n + extra) id s = (Pending, tr, s'') /\
            checks tr = S n) as W.
  { revert extra. induction B as [s | s state s1 n s' H R B IH]; intros extra.
    - exists [EvStatus id (inl e)]. split; [|reflexivity]. simpl. now rewrite F.
    - destruct (IH F extra) as (tr & E & C).
      exists (EvStatus id (inr state) :: EvTimeout 1000 :: tr). split.
      + change (S (S n) + extra) with (S (S n + extra)).
        rewrite (wait_step_again athena _ _ _ _ _ H R). now rewrite E.
      + unfold checks in *. simpl. now rewrite C. }
  split; [exact W|].
  intros tableName table ifExists s0 St. destruct W as (tr & E & _).
  eexists. rewrite delete_run, St, E. reflexivity.
Qed.

Lemma waitForAthenaQuery_status_error_hangs_witness :
  (exists tr,
     waitForAthenaQuery scripted (S 1 + 3) "q-1"
       (mkScript [] [inr "RUNNING"; inl (AwsError "ThrottlingException");
                     inr "SUCCEEDED"]) =
     (Pending, tr, mkScript [] [inr "SUCCEEDED"]) /\
     checks tr = S 1) /\
  (forall tableName table ifExists s0,
     startQueryExecution scripted (drop_params (flag ifExists) table) s0 =
     (inr "q-1",
      mkScript [] [inr "RUNNING"; inl (AwsError "ThrottlingException");
                   inr "SUCCEEDED"]) ->
     exists tr,
       deleteAthenaTable scripted (S 1 + 3) tableName table ifExists s0 =
       (Pending, tr, mkScript [] [inr "SUCCEEDED"])).
Proof.
  apply (waitForAthenaQuery_status_error_hangs Script scripted "q-1" 1
           (mkScript [] [inr "RUNNING"; inl (AwsError "ThrottlingException");
                         inr "SUCCEEDED"])
           (mkScript [] [inl (AwsError "ThrottlingException"); inr "SUCCEEDED"])
           (mkScript [] [inr "SUCCEEDED"]) (AwsError "ThrottlingException") 3).
  - eapply Busy_S; [reflexivity | now left | apply Busy_O].
  - reflexivity.
Defined.

(** X3.  Every run of [waitForAthenaQuery]: it submits no query, reads no
    file and logs nothing; it asks for the status of the id it was given
    and of no other; every delay is 1000 ms; and when it has settled it
    has waited once less than it has checked. *)
Theorem waitForAthenaQuery_trace :
  forall (Svc : Type) (athena : Athena Svc) (fuel : nat) (id : string)
         (s : Svc) c tr s',
    waitForAthenaQuery athena fuel id s = (c, tr, s') ->
    submitted tr = [] /\ files_read tr = [] /\ logged tr = [] /\
    checked tr = repeat id (checks tr) /\
    delays tr = repeat 1000 (length (delays tr)) /\
    checks tr <= fuel /\
    (c <> OutOfFuel -> checks tr = S (length (delays tr))).
Proof.
  intros Svc athena fuel. induction fuel as [|fuel IH]; intros id s c tr s' H;
    simpl in H.
  - injection H as <- <- <-. unfold checks. simpl.
    repeat split; try reflexivity; try lia. intros N. now elim N.
  - destruct (getQueryExecution athena id s) as [[e|state] s1].
    + injection H as <- <- <-. unfold checks. simpl.
      repeat split; try reflexivity; lia.
    + destruct (isQueryComplete_switch id state) eqn:V.
      * injection H as <- <- <-. unfold checks. simpl.
        repeat split; try reflexivity; lia.
      * destruct (waitForAthenaQuery athena fuel id s1) as [[c1 tr1] s2] eqn:W.
        injection H as <- <- <-. apply switch_again in V as [_ ->].
        destruct (IH _ _ _ _ _ W) as (H1 & H2 & H3 & H4 & H5 & H6 & H7).
        unfold checks in *. simpl.
        repeat split; try assumption.
        -- now rewrite H4.
        -- now rewrite <- H5.
        -- lia.
        -- intros N. now rewrite (H7 N).
      * injection H as <- <- <-. unfold checks. simpl.
        repeat split; try reflexivity; lia.
Qed.

Lemma waitForAthenaQuery_trace_witness :
  submitted [EvStatus "q-1" (inr "RUNNING"); EvTimeout 1000;
             EvStatus "q-1" (inr "FAILED")] = [] /\
  files_read [EvStatus "q-1" (inr "RUNNING"); EvTimeout 1000;
              EvStatus "q-1" (inr "FAILED")] = [] /\
  logged [EvStatus "q-1" (inr "RUNNING"); EvTimeout 1000;
          EvStatus "q-1" (inr "FAILED")] = [] /\
  checked [EvStatus "q-1" (inr "RUNNING"); EvTimeout 1000;
           EvStatus "q-1" (inr "FAILED")] =
    repeat "q-1" (checks [EvStatus "q-1" (inr "RUNNING"); EvTimeout 1000;
                          EvStatus "q-1" (inr "FAILED")]) /\
  delays [EvStatus "q-1" (inr "RUNNING"); EvTimeout 1000;
          EvStatus "q-1" (inr "FAILED")] =
    repeat 1000 (length (delays [EvStatus "q-1" (inr "RUNNING"); EvTimeout 1000;
                                 EvStatus "q-1" (inr "FAILED")])) /\
  checks [EvStatus "q-1" (inr "RUNNING"); EvTimeout 1000;
          EvStatus "q-1" (inr "FAILED")] <= 4 /\
  (Rejected (Reason "Query status FAILED") <> @OutOfFuel string ->
   checks [EvStatus "q-1" (inr "RUNNING"); EvTimeout 1000;
           EvStatus "q-1" (inr "FAILED")] =
   S (length (delays [EvStatus "q-1" (inr "RUNNING"); EvTimeout 1000;
                      EvStatus "q-1" (inr "FAILED")]))).
Proof.
  apply (waitForAthenaQuery_trace Script scripted 4 "q-1"
           (mkScript [] (states ["RUNNING"; "FAILED"]))
           (Rejected (Reason "Query status FAILED"))
           [EvStatus "q-1" (inr "RUNNING"); EvTimeout 1000;
            EvStatus "q-1" (inr "FAILED")]
           (mkScript [] [])).
  reflexivity.
Defined.

(** ** More on validation *)


(** X4.  [validateAthenaTable] accepts a definition exactly when it has
    one of DDL and DDLFile and not the other, an OutputLocation and a
    TableName; DatabaseName and DDLSubstitutions play no part. *)
Theorem validateAthenaTable_accepts_iff_valid :
  forall (Svc : Type) (tableName : string) (table : Table) (s : Svc),
    fst (fst (validateAthenaTable tableName table s)) = Fulfilled tt <->
    xorb (Js.truthy (DDL table)) (Js.truthy (DDLFile table)) = true /\
    Js.truthy (OutputLocation table) = true /\
    Js.truthy (TableName table) = true.
Proof.
  intros Svc tableName table s. split.
  - intros H. destruct (valid table) eqn:V.
    + unfold valid in V. apply andb_true_iff in V as [V H3].
      apply andb_true_iff in V as [H1 H2]. now repeat split.
    + destruct (validate_invalid tableName table V) as [msg E].
      rewrite E in H. discriminate.
  - intros (H1 & H2 & H3). rewrite validate_valid; [reflexivity|].
    unfold valid. now rewrite H1, H2, H3.
Qed.



(** ** Nothing configured *)

(** X6.  Without [custom.athenaTables], or with an empty one, no hook and
    no command touches the service or the files: the three hooks of the
    deploy and the remove do nothing at all, and the two commands given
    no table log that no tables were found; all are fulfilled. *)
Theorem hooks_without_tables :
  forall (Svc : Type) (athena : Athena Svc) (files : Files) (fuel : nat)
         (this : Plugin) (s : Svc),
    custom_athenaTables this = None \/ custom_athenaTables this = Some [] ->
    validateAthenaTablesGlobal this s = (Fulfilled None, [], s) /\
    createAthenaTablesGlobal athena files this fuel s = (Fulfilled tt, [], s) /\
    deleteAthenaTablesGlobal athena this fuel s = (Fulfilled tt, [], s) /\
    (Js.truthy (options_table this) = false ->
     deployAthenaTablesDeploy athena files this fuel s =
       (Fulfilled None, [EvLog msg_none_found], s) /\
     removeAthenaTablesRemove athena this fuel s =
       (Fulfilled None, [EvLog msg_none_found], s)).
Proof.
  intros Svc athena files fuel this s H.
  assert (getAthenaTables this = []) as G
    by (unfold getAthenaTables; now destruct H as [-> | ->]).
  unfold validateAthenaTablesGlobal, createAthenaTablesGlobal,
    deleteAthenaTablesGlobal, deployAthenaTablesDeploy, removeAthenaTablesRemove.
  rewrite G. split; [reflexivity | split; [reflexivity | split; [reflexivity|]]].
  intros O. rewrite O. split; reflexivity.
Qed.

Lemma hooks_without_tables_witness :
  validateAthenaTablesGlobal (mkPlugin None None) third_refused =
    (Fulfilled None, [], third_refused) /\
  createAthenaTablesGlobal scripted no_files (mkPlugin None None) 5 third_refused =
    (Fulfilled tt, [], third_refused) /\
  deleteAthenaTablesGlobal scripted (mkPlugin None None) 5 third_refused =
    (Fulfilled tt, [], third_refused) /\
  (Js.truthy (options_table (mkPlugin None None)) = false ->
   deployAthenaTablesDeploy scripted no_files (mkPlugin None None) 5 third_refused =
     (Fulfilled None, [EvLog msg_none_found], third_refused) /\
   removeAthenaTablesRemove scripted (mkPlugin None None) 5 third_refused =
     (Fulfilled None, [EvLog msg_none_found], third_refused)).
Proof.
  apply (hooks_without_tables Script scripted no_files 5 (mkPlugin None None)).
  now left.
Defined.

(** ** More on one table *)

Lemma substituteDDL_text {Svc : Type} (table : Table) (text : string) (s : Svc) :
  substituteDDL table (Some text) s = (Fulfilled (Some (resolved table text)), [], s).
Proof.
  unfold substituteDDL, resolved. now destruct (DDLSubstitutions table).
Qed.

(** The text of a valid definition is read or not, and nothing else
    happens. *)
Lemma readDDL_run {Svc : Type} (files : Files) (table : Table) (s : Svc) :
  valid table = true ->
  readDDL files table s =
  (match source_text files table with
   | inl e => Rejected e
   | inr text => Fulfilled (Some text)
   end, read_events files table, s).
Proof.
  unfold valid, readDDL, source_text, read_events. intros V.
  destruct (Js.truthy (DDLFile table)) eqn:F.
  - unfold bind, readFile. now destruct (files (Js.tmpl (DDLFile table))).
  - rewrite xorb_false_r in V. apply andb_true_iff in V as [V _].
    apply andb_true_iff in V as [V _].
    destruct (DDL table) as [d|]; [reflexivity | discriminate].
Qed.

Section CreateRun.

Context {Svc : Type} (athena : Athena Svc) (files : Files).

(** [createAthenaTable] on a valid definition, step by step: the drop,
    the text, the submission of the text, the poller. *)
Lemma create_run fuel tableName table s :
  valid table = true ->
  createAthenaTable athena files fuel tableName table s =
  match deleteAthenaTable athena fuel tableName table (Some true) s with
  | (Fulfilled _, trd, s1) =>
      match source_text files table with
      | inl e =>
          (Rejected e,
           (validation_log tableName table ++ trd ++ read_events files table)%list,
           s1)
      | inr text =>
          let (r, s2) := startQueryExecution athena (create_params table text) s1 in
          match r with
          | inl e =>
              (Rejected e,
               (validation_log tableName table ++ trd ++ read_events files table
                ++ [EvLog (msg_creating tableName);
                    EvStart (create_params table text) r])%list, s2)
          | inr id =>
              let '(c, tr, s3) := waitForAthenaQuery athena fuel id s2 in
              (c,
               (validation_log tableName table ++ trd ++ read_events files table
                ++ EvLog (msg_creating tableName)
                   :: EvStart (create_params table text) r :: tr)%list, s3)
          end
      end
  | (c, trd, s1) => (carry c, (validation_log tableName table ++ trd)%list, s1)
  end.
Proof.
  intros V. unfold createAthenaTable, then_.
  rewrite (validate_valid _ _ _ V).
  destruct (deleteAthenaTable athena fuel tableName table (Some true) s)
    as [[cd trd] s1] eqn:D.
  pose proof (delete_shape athena _ _ _ _ _ _ _ _ D) as (_ & _ & _ & _ & Ht & _).
  destruct cd as [v|e|e| |]; try reflexivity; [| now elim (Ht e)].
  cbn [settle]. rewrite (readDDL_run files table s1 V).
  destruct (source_text files table) as [e|text].
  - cbn [settle carry]. now rewrite <- app_assoc.
  - cbn [settle]. rewrite substituteDDL_text. cbn [settle].
    unfold bind, log, emit, athena_startQueryExecution.
    fold (create_params table text). fold (msg_creating tableName).
    destruct (startQueryExecution athena (create_params table text) s1)
      as [[e|id] s2].
    + cbn [settle carry app]. rewrite app_nil_r. now rewrite <- !app_assoc.
    + cbn [settle app].
      destruct (waitForAthenaQuery athena fuel id s2) as [[c tr] s3] eqn:W.
      rewrite (wait_not_thrown athena _ _ _ _ _ _ W), app_nil_r.
      rewrite <- !app_assoc. reflexivity.
Qed.

End CreateRun.

Lemma files_read_app (tr1 tr2 : list Event) :
  files_read (tr1 ++ tr2) = (files_read tr1 ++ files_read tr2)%list.
Proof.
  induction tr1 as [|ev tr1 IH]; [reflexivity|].
  destruct ev; simpl; now rewrite ?IH.
Qed.

Lemma validation_log_quiet (tableName : string) (table : Table) :
  submitted (validation_log tableName table) = [] /\
  files_read (validation_log tableName table) = [].
Proof.
  unfold validation_log. now destruct (Js.truthy (DatabaseName table)).
Qed.

Lemma read_events_quiet (files : Files) (table : Table) :
  submitted (read_events files table) = [] /\
  length (files_read (read_events files table)) <= 1.
Proof.
  unfold read_events. destruct (Js.truthy (DDLFile table)); simpl; split;
    try reflexivity; lia.
Qed.

Lemma wait_reads_nothing {Svc : Type} (athena : Athena Svc) fuel :
  forall id s c tr s',
    waitForAthenaQuery athena fuel id s = (c, tr, s') -> files_read tr = [].
Proof.
  induction fuel as [|fuel IH]; intros id s c tr s' H; simpl in H.
  - now injection H as <- <- <-.
  - destruct (getQueryExecution athena id s) as [[e|state] s1].
    + now injection H as <- <- <-.
    + destruct (isQueryComplete_switch id state).
      * now injection H as <- <- <-.
      * destruct (waitForAthenaQuery athena fuel id s1) as [[c1 tr1] s2] eqn:W.
        injection H as <- <- <-. simpl. now apply (IH _ _ _ _ _ W).
      * now injection H as <- <- <-.
Qed.

Lemma delete_reads_nothing {Svc : Type} (athena : Athena Svc)
    fuel tableName table ifExists s c tr s' :
  deleteAthenaTable athena fuel tableName table ifExists s = (c, tr, s') ->
  files_read tr = [].
Proof.
  rewrite delete_run.
  destruct (startQueryExecution athena (drop_params (flag ifExists) table) s)
    as [[e|id] s1].
  - intros H. now injection H as <- <- <-.
  - destruct (waitForAthenaQuery athena fuel id s1) as [[c1 tr1] s2] eqn:W.
    intros H. injection H as <- <- <-. simpl.
    now apply (wait_reads_nothing athena _ _ _ _ _ _ W).
Qed.

(** X7.  [deleteAthenaTable] validates nothing: whatever the definition, it
    logs and submits the drop, so every run makes a remote call, and a
    definition without TableName has the text [undefined] for it.  When
    the submission is refused the promise is rejected with that error and
    no status is asked for; when it is accepted the outcome is that of the
    poller on the id that came back. *)
Theorem deleteAthenaTable_submits_unvalidated :
  forall (Svc : Type) (athena : Athena Svc) (fuel : nat) (tableName : string)
         (table : Table) (ifExists : option bool) (s : Svc),
    (forall e s1,
       startQueryExecution athena (drop_params (flag ifExists) table) s =
       (inl e, s1) ->
       deleteAthenaTable athena fuel tableName table ifExists s =
       (Rejected e,
        [EvLog (msg_removing tableName table);
         EvStart (drop_params (flag ifExists) table) (inl e)], s1)) /\
    (forall id s1 c tr s2,
       startQueryExecution athena (drop_params (flag ifExists) table) s =
       (inr id, s1) ->
       waitForAthenaQuery athena fuel id s1 = (c, tr, s2) ->
       deleteAthenaTable athena fuel tableName table ifExists s =
       (c, EvLog (msg_removing tableName table)
           :: EvStart (drop_params (flag ifExists) table) (inr id) :: tr, s2)) /\
    (TableName table = None ->
     QueryString (drop_params (flag ifExists) table) =
     Some (if flag ifExists then "DROP TABLE IF EXISTS undefined"
           else "DROP TABLE  undefined")) /\
    (forall c tr s',
       deleteAthenaTable athena fuel tableName table ifExists s = (c, tr, s') ->
       submitted tr = [drop_params (flag ifExists) table] /\
       files_read tr = []).
Proof.
  intros Svc athena fuel tableName table ifExists s.
  split; [| split; [| split]].
  - intros e s1 H. now rewrite delete_run, H.
  - intros id s1 c tr s2 H W. now rewrite delete_run, H, W.
  - intros H. unfold drop_params, drop_query. cbn [QueryString]. rewrite H.
    now destruct (flag ifExists).
  - intros c tr s' H. split.
    + exact (delete_submitted athena _ _ _ _ _ _ _ _ H).
    + exact (delete_reads_nothing athena _ _ _ _ _ _ _ _ H).
Qed.

Lemma deleteAthenaTable_submits_unvalidated_witness :
  deleteAthenaTable scripted 5 "orders" empty_table None
    (mkScript [inl (AwsError "InvalidRequestException")] (states ["SUCCEEDED"])) =
    (Rejected (AwsError "InvalidRequestException"),
     [EvLog (msg_removing "orders" empty_table);
      EvStart (drop_params false empty_table)
        (inl (AwsError "InvalidRequestException"))],
     mkScript [] (states ["SUCCEEDED"])) /\
  deleteAthenaTable scripted 5 "orders" empty_table None
    (mkScript [inr "q-1"] (states ["FAILED"])) =
    (Rejected (Reason "Query status FAILED"),
     [EvLog (msg_removing "orders" empty_table);
      EvStart (drop_params false empty_table) (inr "q-1");
      EvStatus "q-1" (inr "FAILED")],
     mkScript [] []) /\
  QueryString (drop_params false empty_table) = Some "DROP TABLE  undefined".
Proof.
  destruct (deleteAthenaTable_submits_unvalidated Script scripted 5 "orders"
              empty_table None
              (mkScript [inl (AwsError "InvalidRequestException")]
                 (states ["SUCCEEDED"]))) as (H1 & _ & H3 & _).
  destruct (deleteAthenaTable_submits_unvalidated Script scripted 5 "orders"
              empty_table None (mkScript [inr "q-1"] (states ["FAILED"])))
    as (_ & H2 & _).
  split; [| split].
  - apply H1. reflexivity.
  - apply (H2 "q-1" (mkScript [] (states ["FAILED"]))); reflexivity.
  - apply H3. reflexivity.
Defined.

(** X8.  When the drop that [createAthenaTable] starts with is not
    fulfilled, the create ends as the drop did: it is rejected with the
    same error (or stays unsettled with it), the DDL file is not read and
    the drop is the only query submitted. *)
Theorem createAthenaTable_drop_failure :
  forall (Svc : Type) (athena : Athena Svc) (files : Files) (fuel : nat)
         (tableName : string) (table : Table) (s : Svc) c trd s1,
    valid table = true ->
    deleteAthenaTable athena fuel tableName table (Some true) s = (c, trd, s1) ->
    fulfilled c = false ->
    createAthenaTable athena files fuel tableName table s =
    (carry c, (validation_log tableName table ++ trd)%list, s1) /\
    submitted (validation_log tableName table ++ trd) = [drop_params true table] /\
    files_read (validation_log tableName table ++ trd) = [].
Proof.
  intros Svc athena files fuel tableName table s c trd s1 V D N.
  destruct (validation_log_quiet tableName table) as [Q1 Q2].
  split; [| split].
  - rewrite (create_run athena files _ _ _ _ V), D. now destruct c.
  - rewrite submitted_app, Q1. exact (delete_submitted athena _ _ _ _ _ _ _ _ D).
  - rewrite files_read_app, Q2. exact (delete_reads_nothing athena _ _ _ _ _ _ _ _ D).
Qed.

Lemma createAthenaTable_drop_failure_witness :
  createAthenaTable scripted no_files 5 "t1"
    (inline_table "orders" "CREATE EXTERNAL TABLE orders")
    (mkScript [inr "q-1"; inr "q-2"] (states ["FAILED"; "SUCCEEDED"])) =
    (Rejected (Reason "Query status FAILED"),
     (validation_log "t1" (inline_table "orders" "CREATE EXTERNAL TABLE orders")
      ++ [EvLog (msg_removing "t1" (inline_table "orders" "CREATE EXTERNAL TABLE orders"));
          EvStart (drop_params true (inline_table "orders" "CREATE EXTERNAL TABLE orders"))
            (inr "q-1");
          EvStatus "q-1" (inr "FAILED")])%list,
     mkScript [inr "q-2"] (states ["SUCCEEDED"])).
Proof.
  apply (createAthenaTable_drop_failure Script scripted no_files 5 "t1"
           (inline_table "orders" "CREATE EXTERNAL TABLE orders")
           (mkScript [inr "q-1"; inr "q-2"] (states ["FAILED"; "SUCCEEDED"]))
           (Rejected (Reason "Query status FAILED"))); reflexivity.
Defined.

(** X9.  The DDL file is read after the drop.  When the definition names a
    file that cannot be read and the drop has succeeded,
    [createAthenaTable] is rejected with the error of the read and submits
    no CREATE: the table has been dropped and is not created again. *)
Theorem createAthenaTable_unreadable_file :
  forall (Svc : Type) (athena : Athena Svc) (files : Files) (fuel : nat)
         (tableName : string) (table : Table) (path : string) (s : Svc) v trd s1,
    valid table = true ->
    DDLFile table = Some path -> path <> "" -> files path = None ->
    deleteAthenaTable athena fuel tableName table (Some true) s =
    (Fulfilled v, trd, s1) ->
    createAthenaTable athena files fuel tableName table s =
    (Rejected (IOError path),
     (validation_log tableName table ++ trd
      ++ [EvReadFile path (inl (IOError path))])%list, s1) /\
    submitted (validation_log tableName table ++ trd
               ++ [EvReadFile path (inl (IOError path))]) =
    [drop_params true table].
Proof.
  intros Svc athena files fuel tableName table path s v trd s1 V F N R D.
  destruct (validation_log_quiet tableName table) as [Q1 _].
  apply String.eqb_neq in N.
  split.
  - rewrite (create_run athena files _ _ _ _ V), D.
    unfold source_text, read_events. rewrite F. unfold Js.truthy, Js.tmpl.
    rewrite N. cbn [negb]. now rewrite R.
  - rewrite !submitted_app, Q1, (delete_submitted athena _ _ _ _ _ _ _ _ D).
    reflexivity.
Qed.

Lemma createAthenaTable_unreadable_file_witness :
  createAthenaTable scripted no_files 5 "t1"
    (mkTable None (Some "orders.sql") (Some "s3://o/") (Some "orders") (Some "db") None)
    (mkScript [inr "q-1"; inr "q-2"] (states ["SUCCEEDED"; "SUCCEEDED"])) =
    (Rejected (IOError "orders.sql"),
     (validation_log "t1"
        (mkTable None (Some "orders.sql") (Some "s3://o/") (Some "orders") (Some "db") None)
      ++ [EvLog "Removing Athena table t1 (orders)...";
          EvStart
            (drop_params true
               (mkTable None (Some "orders.sql") (Some "s3://o/") (Some "orders")
                  (Some "db") None)) (inr "q-1");
          EvStatus "q-1" (inr "SUCCEEDED")]
      ++ [EvReadFile "orders.sql" (inl (IOError "orders.sql"))])%list,
     mkScript [inr "q-2"] (states ["SUCCEEDED"])).
Proof.
  apply (createAthenaTable_unreadable_file Script scripted no_files 5 "t1"
           (mkTable None (Some "orders.sql") (Some "s3://o/") (Some "orders")
              (Some "db") None)
           "orders.sql"
           (mkScript [inr "q-1"; inr "q-2"] (states ["SUCCEEDED"; "SUCCEEDED"]))
           "q-1").
  - reflexivity.
  - reflexivity.
  - discriminate.
  - reflexivity.
  - reflexivity.
Defined.

(** X10.  After a drop that succeeded, [createAthenaTable] on a valid
    definition submits one more query: its text is the DDL, from the file
    or inline, with the substitutions of the definition applied, and it
    carries the OutputLocation and the database of the definition.  When
    this submission is refused the create is rejected with that error;
    when it is accepted the outcome is that of the poller on its id. *)
Theorem createAthenaTable_submits_resolved_text :
  forall (Svc : Type) (athena : Athena Svc) (files : Files) (fuel : nat)
         (tableName : string) (table : Table) (text : string)
         (s : Svc) v trd s1,
    valid table = true ->
    deleteAthenaTable athena fuel tableName table (Some true) s =
    (Fulfilled v, trd, s1) ->
    source_text files table = inr text ->
    (forall e s2,
       startQueryExecution athena (create_params table text) s1 = (inl e, s2) ->
       createAthenaTable athena files fuel tableName table s =
       (Rejected e,
        (validation_log tableName table ++ trd ++ read_events files table
         ++ [EvLog (msg_creating tableName);
             EvStart (create_params table text) (inl e)])%list, s2)) /\
    (forall id s2 c tr s3,
       startQueryExecution athena (create_params table text) s1 = (inr id, s2) ->
       waitForAthenaQuery athena fuel id s2 = (c, tr, s3) ->
       createAthenaTable athena files fuel tableName table s =
       (c,
        (validation_log tableName table ++ trd ++ read_events files table
         ++ EvLog (msg_creating tableName)
            :: EvStart (create_params table text) (inr id) :: tr)%list, s3)) /\
    QueryString (create_params table text) =
      Some (match DDLSubstitutions table with
            | Some substitutions => substitute substitutions text
            | None => text
            end) /\
    ResultConfiguration_OutputLocation (create_params table text) =
      OutputLocation table /\
    QueryExecutionContext_Database (create_params table text) =
      (if Js.truthy (DatabaseName table) then DatabaseName table else None).
Proof.
  intros Svc athena files fuel tableName table text s v trd s1 V D T.
  split; [| split; [| now repeat split]].
  - intros e s2 H. now rewrite (create_run athena files _ _ _ _ V), D, T, H.
  - intros id s2 c tr s3 H W.
    now rewrite (create_run athena files _ _ _ _ V), D, T, H, W.
Qed.

Lemma createAthenaTable_submits_resolved_text_witness :
  queries
    (createAthenaTable scripted (fun _ => Some "CREATE EXTERNAL TABLE t LOCATION '{Loc}'")
       5 "t1"
       (mkTable None (Some "t.sql") (Some "s3://o/") (Some "t") None
          (Some [("Loc", "s3://data/")]))
       (mkScript [inr "q-1"; inr "q-2"] (states ["SUCCEEDED"; "SUCCEEDED"]))) =
    [Some "DROP TABLE IF EXISTS t";
     Some "CREATE EXTERNAL TABLE t LOCATION 's3://data/'"] /\
  fst (fst
    (createAthenaTable scripted (fun _ => Some "CREATE EXTERNAL TABLE t LOCATION '{Loc}'")
       5 "t1"
       (mkTable None (Some "t.sql") (Some "s3://o/") (Some "t") None
          (Some [("Loc", "s3://data/")]))
       (mkScript [inr "q-1"; inr "q-2"] (states ["SUCCEEDED"; "SUCCEEDED"])))) =
    Fulfilled "q-2".
Proof.
  destruct (createAthenaTable_submits_resolved_text Script scripted
              (fun _ => Some "CREATE EXTERNAL TABLE t LOCATION '{Loc}'") 5 "t1"
              (mkTable None (Some "t.sql") (Some "s3://o/") (Some "t") None
                 (Some [("Loc", "s3://data/")]))
              "CREATE EXTERNAL TABLE t LOCATION '{Loc}'"
              (mkScript [inr "q-1"; inr "q-2"] (states ["SUCCEEDED"; "SUCCEEDED"]))
              "q-1"
              [EvLog "Removing Athena table t1 (t)...";
               EvStart
                 (drop_params true
                    (mkTable None (Some "t.sql") (Some "s3://o/") (Some "t") None
                       (Some [("Loc", "s3://data/")]))) (inr "q-1");
               EvStatus "q-1" (inr "SUCCEEDED")]
              (mkScript [inr "q-2"] (states ["SUCCEEDED"]))
              eq_refl eq_refl eq_refl) as (_ & H & _).
  rewrite (H "q-2" (mkScript [] (states ["SUCCEEDED"])) (Fulfilled "q-2")
             [EvStatus "q-2" (inr "SUCCEEDED")] (mkScript [] []) eq_refl eq_refl).
  split; reflexivity.
Defined.

(** X11.  Every run of [createAthenaTable] on a valid definition submits
    at most two queries and reads at most one file, and every query it
    submits carries the OutputLocation and the database of the
    definition.  It is fulfilled only with the id of the second query, the
    CREATE, and then its last event is the status check that saw that
    query SUCCEEDED. *)
Theorem createAthenaTable_at_most_two_queries :
  forall (Svc : Type) (athena : Athena Svc) (files : Files) (fuel : nat)
         (tableName : string) (table : Table) (s : Svc) c tr s',
    valid table = true ->
    createAthenaTable athena files fuel tableName table s = (c, tr, s') ->
    length (submitted tr) <= 2 /\
    length (files_read tr) <= 1 /\
    Forall (fun p =>
              ResultConfiguration_OutputLocation p = OutputLocation table /\
              QueryExecutionContext_Database p = context_of table)
           (submitted tr) /\
    (forall v,
       c = Fulfilled v ->
       exists text,
         source_text files table = inr text /\
         submitted tr = [drop_params true table; create_params table text] /\
         In (EvStart (create_params table text) (inr v)) tr /\
         last tr (EvLog "") = EvStatus v (inr "SUCCEEDED")).
Proof.
  intros Svc athena files fuel tableName table s c tr s' V H.
  rewrite (create_run athena files _ _ _ _ V) in H.
  destruct (validation_log_quiet tableName table) as [Q1 Q2].
  destruct (read_events_quiet files table) as [R1 R2].
  destruct (deleteAthenaTable athena fuel tableName table (Some true) s)
    as [[cd trd] s1] eqn:D.
  pose proof (delete_submitted athena _ _ _ _ _ _ _ _ D) as D1.
  pose proof (delete_reads_nothing athena _ _ _ _ _ _ _ _ D) as D2.
  assert (Forall (fun p =>
                    ResultConfiguration_OutputLocation p = OutputLocation table /\
                    QueryExecutionContext_Database p = context_of table)
                 [drop_params true table]) as P1
    by (constructor; [now split | constructor]).
  assert (forall text,
            Forall (fun p =>
                      ResultConfiguration_OutputLocation p = OutputLocation table /\
                      QueryExecutionContext_Database p = context_of table)
                   [drop_params true table; create_params table text]) as P2
    by (intros text; repeat constructor).
  assert (forall c0 : Completion string,
            fulfilled c0 = false ->
            (c0, (validation_log tableName table ++ trd)%list, s1) = (c, tr, s') ->
            length (submitted tr) <= 2 /\
            length (files_read tr) <= 1 /\
            Forall (fun p =>
                      ResultConfiguration_OutputLocation p = OutputLocation table /\
                      QueryExecutionContext_Database p = context_of table)
                   (submitted tr) /\
            (forall v,
               c = Fulfilled v ->
               exists text,
                 source_text files table = inr text /\
                 submitted tr = [drop_params true table; create_params table text] /\
                 In (EvStart (create_params table text) (inr v)) tr /\
                 last tr (EvLog "") = EvStatus v (inr "SUCCEEDED"))) as Stop.
  { intros c0 N E. injection E as <- <- <-.
    rewrite submitted_app, files_read_app, Q1, Q2, D1, D2. simpl.
    repeat split; try lia; [exact P1|]. intros v ->. discriminate. }
  destruct cd as [v0|e|e| |];
    try (cbn [carry] in H; eapply Stop; [|exact H]; reflexivity).
  destruct (source_text files table) as [e|text] eqn:T.
  - injection H as <- <- <-.
    rewrite !submitted_app, !files_read_app, Q1, Q2, D1, D2, R1. simpl.
    repeat split; try lia; [exact P1|]. intros v E. discriminate.
  - destruct (startQueryExecution athena (create_params table text) s1)
      as [[e|id] s2].
    + injection H as <- <- <-.
      rewrite !submitted_app, !files_read_app, Q1, Q2, D1, D2, R1. simpl.
      rewrite app_nil_r.
      repeat split; try lia; [apply P2|]. intros v E. discriminate.
    + destruct (waitForAthenaQuery athena fuel id s2) as [[cw trw] s3] eqn:W.
      injection H as <- <- <-.
      pose proof (wait_submits_nothing athena _ _ _ _ _ _ W) as W1.
      pose proof (wait_reads_nothing athena _ _ _ _ _ _ W) as W2.
      rewrite !submitted_app, !files_read_app, Q1, Q2, D1, D2, R1. simpl.
      rewrite W1, W2, app_nil_r. simpl.
      split; [lia | split; [lia | split; [apply P2|]]]. intros v ->.
      destruct (wait_fulfilled athena _ _ _ _ _ _ W) as [-> [polls ->]].
      exists text. repeat split.
      * apply in_or_app. right. apply in_or_app. right. apply in_or_app. right.
        right. now left.
      * replace (validation_log tableName table ++ trd ++ read_events files table
                 ++ EvLog (msg_creating tableName)
                    :: EvStart (create_params table text) (inr id)
                    :: polls ++ [EvStatus id (inr "SUCCEEDED")])%list
          with ((validation_log tableName table ++ trd ++ read_events files table
                 ++ EvLog (msg_creating tableName)
                    :: EvStart (create_params table text) (inr id) :: polls)
                ++ [EvStatus id (inr "SUCCEEDED")])%list
          by (rewrite <- !app_assoc; reflexivity).
        apply last_last.
Qed.

Lemma createAthenaTable_at_most_two_queries_witness :
  length (submitted (snd (fst
    (createAthenaTable scripted no_files 5 "t1"
       (inline_table "orders" "CREATE EXTERNAL TABLE orders")
       (mkScript [inr "q-1"; inr "q-2"; inr "q-3"]
          (states ["SUCCEEDED"; "RUNNING"; "SUCCEEDED"; "SUCCEEDED"])))))) <= 2 /\
  length (files_read (snd (fst
    (createAthenaTable scripted no_files 5 "t1"
       (inline_table "orders" "CREATE EXTERNAL TABLE orders")
       (mkScript [inr "q-1"; inr "q-2"; inr "q-3"]
          (states ["SUCCEEDED"; "RUNNING"; "SUCCEEDED"; "SUCCEEDED"])))))) <= 1.
Proof.
  destruct (createAthenaTable_at_most_two_queries Script scripted no_files 5 "t1"
              (inline_table "orders" "CREATE EXTERNAL TABLE orders")
              (mkScript [inr "q-1"; inr "q-2"; inr "q-3"]
                 (states ["SUCCEEDED"; "RUNNING"; "SUCCEEDED"; "SUCCEEDED"]))
              (Fulfilled "q-2") _ (mkScript [inr "q-3"] (states ["SUCCEEDED"]))
              eq_refl eq_refl) as (H1 & H2 & _).
  split; [exact H1 | exact H2].
Defined.

(** ** More on batches *)

Lemma logged_app (tr1 tr2 : list Event) :
  logged (tr1 ++ tr2) = (logged tr1 ++ logged tr2)%list.
Proof.
  induction tr1 as [|ev tr1 IH]; [reflexivity|].
  destruct ev; simpl; now rewrite ?IH.
Qed.

Lemma logged_In (tr : list Event) (msg : string) :
  In (EvLog msg) tr <-> In msg (logged tr).
Proof.
  induction tr as [|ev tr IH]; [simpl; tauto|].
  destruct ev; simpl; rewrite <- IH;
    intuition (try discriminate; try congruence).
Qed.

Lemma wait_logs_nothing {Svc : Type} (athena : Athena Svc) fuel :
  forall id s c tr s',
    waitForAthenaQuery athena fuel id s = (c, tr, s') -> logged tr = [].
Proof.
  induction fuel as [|fuel IH]; intros id s c tr s' H; simpl in H.
  - now injection H as <- <- <-.
  - destruct (getQueryExecution athena id s) as [[e|state] s1].
    + now injection H as <- <- <-.
    + destruct (isQueryComplete_switch id state).
      * now injection H as <- <- <-.
      * destruct (waitForAthenaQuery athena fuel id s1) as [[c1 tr1] s2] eqn:W.
        injection H as <- <- <-. simpl. now apply (IH _ _ _ _ _ W).
      * now injection H as <- <- <-.
Qed.

Lemma delete_logged {Svc : Type} (athena : Athena Svc)
    fuel tableName table ifExists s c tr s' :
  deleteAthenaTable athena fuel tableName table ifExists s = (c, tr, s') ->
  logged tr = [msg_removing tableName table].
Proof.
  rewrite delete_run.
  destruct (startQueryExecution athena (drop_params (flag ifExists) table) s)
    as [[e|id] s1].
  - intros H. now injection H as <- <- <-.
  - destruct (waitForAthenaQuery athena fuel id s1) as [[c1 tr1] s2] eqn:W.
    intros H. injection H as <- <- <-. simpl.
    now rewrite (wait_logs_nothing athena _ _ _ _ _ _ W).
Qed.

(** No line that [deleteAthenaTable] logs starts with the letter A. *)
Lemma delete_logged_lines {Svc : Type} (athena : Athena Svc)
    fuel tableName table ifExists s c tr s' :
  deleteAthenaTable athena fuel tableName table ifExists s = (c, tr, s') ->
  Forall (fun msg => forall rest, msg <> String "A" rest) (logged tr).
Proof.
  intros H. rewrite (delete_logged athena _ _ _ _ _ _ _ _ H).
  repeat constructor. discriminate.
Qed.

(** Nor one that [createAthenaTable] logs. *)
Lemma create_logged {Svc : Type} (athena : Athena Svc) (files : Files)
    fuel tableName table s c tr s' :
  createAthenaTable athena files fuel tableName table s = (c, tr, s') ->
  Forall (fun msg => forall rest, msg <> String "A" rest) (logged tr).
Proof.
  intros H. destruct (valid table) eqn:V.
  - rewrite (create_run athena files _ _ _ _ V) in H.
    assert (Forall (fun msg => forall rest, msg <> String "A" rest)
                   (logged (validation_log tableName table))) as L0.
    { unfold validation_log. destruct (Js.truthy (DatabaseName table));
        repeat constructor. discriminate. }
    assert (logged (read_events files table) = []) as L2
      by (unfold read_events; now destruct (Js.truthy (DDLFile table))).
    destruct (deleteAthenaTable athena fuel tableName table (Some true) s)
      as [[cd trd] s1] eqn:D.
    pose proof (delete_logged_lines athena _ _ _ _ _ _ _ _ D) as L1.
    assert (Forall (fun msg => forall rest, msg <> String "A" rest)
                   (logged (validation_log tableName table ++ trd))) as L01
      by (rewrite logged_app; apply Forall_app; now split).
    destruct cd as [v|e|e| |]; try (injection H as <- <- <-; exact L01).
    destruct (source_text files table) as [e|text].
    + injection H as <- <- <-. rewrite !logged_app, L2, app_nil_r.
      apply Forall_app. now split.
    + destruct (startQueryExecution athena (create_params table text) s1)
        as [[e|id] s2].
      * injection H as <- <- <-. rewrite !logged_app, L2. simpl.
        apply Forall_app. split; [exact L0|]. apply Forall_app.
        split; [exact L1|]. repeat constructor. discriminate.
      * destruct (waitForAthenaQuery athena fuel id s2) as [[cw trw] s3] eqn:W.
        injection H as <- <- <-. rewrite !logged_app, L2. simpl.
        rewrite (wait_logs_nothing athena _ _ _ _ _ _ W).
        apply Forall_app. split; [exact L0|]. apply Forall_app.
        split; [exact L1|]. repeat constructor. discriminate.
  - destruct (create_invalid athena files fuel tableName table V) as [msg E].
    destruct (E s) as [_ E']. rewrite E' in H. injection H as <- <- <-.
    constructor.
Qed.

Lemma settle_value {A : Type} (c : Completion A) (a : A) :
  settle c = Fulfilled a -> c = Fulfilled a.
Proof. now destruct c. Qed.

Section MoreBatches.

Context {Svc A B : Type} (op : A -> M Svc B).

(** A queue whose calls were all fulfilled was carried out to its end. *)
Lemma drainQueue_fulfilled order :
  forall s u tr s',
    drainQueue op order s = (Fulfilled u, tr, s') -> Completed op order s tr s'.
Proof.
  induction order as [|item rest IH]; intros s u tr s' H.
  - injection H as _ <- <-. constructor.
  - rewrite drainQueue_cons in H.
    destruct (op item s) as [[c1 tr1] s1] eqn:E.
    destruct c1 as [v|e|e| |]; try discriminate.
    destruct (drainQueue op rest s1) as [[c2 tr2] s2] eqn:R.
    injection H as Hc <- <-. apply settle_value in Hc. subst c2.
    destruct u. econstructor; [exact E | now apply (IH _ tt)].
Qed.

Lemma Completed_submitted (f : A -> list StartParams) order s tr s' :
  (forall item s v tr s',
     op item s = (Fulfilled v, tr, s') -> submitted tr = f item) ->
  Completed op order s tr s' -> submitted tr = flat_map f order.
Proof.
  intros Hf. induction 1 as [s | item rest s v tr1 s1 tr2 s2 H _ IH].
  - reflexivity.
  - rewrite submitted_app, (Hf _ _ _ _ _ H), IH. reflexivity.
Qed.

Lemma drainQueue_logged (Q : string -> Prop) order :
  (forall item s c tr s', op item s = (c, tr, s') -> Forall Q (logged tr)) ->
  forall s c tr s',
    drainQueue op order s = (c, tr, s') -> Forall Q (logged tr).
Proof.
  intros Hop. induction order as [|item rest IH]; intros s c tr s' H.
  - injection H as <- <- <-. constructor.
  - rewrite drainQueue_cons in H.
    destruct (op item s) as [[c1 tr1] s1] eqn:E.
    pose proof (Hop _ _ _ _ _ E) as H1.
    destruct c1; try (now injection H as <- <- <-).
    destruct (drainQueue op rest s1) as [[c2 tr2] s2] eqn:R.
    injection H as <- <- <-. rewrite logged_app. apply Forall_app. split.
    + exact H1.
    + exact (IH _ _ _ _ R).
Qed.

End MoreBatches.

(** A create that was fulfilled was that of a valid definition whose text
    was there, and has submitted the drop and the create. *)
Lemma create_fulfilled_submitted {Svc : Type} (athena : Athena Svc) (files : Files)
    fuel tableEntry s v tr s' :
  create_entry athena files fuel tableEntry s = (Fulfilled v, tr, s') ->
  valid (snd tableEntry) = true /\
  submitted tr = creation_queries files tableEntry.
Proof.
  unfold create_entry, creation_queries.
  destruct tableEntry as [tableName table]. cbn [fst snd]. intros H.
  destruct (valid table) eqn:V.
  2:{ destruct (create_invalid athena files fuel tableName table V) as [msg E].
      destruct (E s) as [_ E']. rewrite E' in H. discriminate. }
  split; [reflexivity|].
  rewrite (create_run athena files _ _ _ _ V) in H.
  destruct (validation_log_quiet tableName table) as [Q1 _].
  destruct (read_events_quiet files table) as [R1 _].
  destruct (deleteAthenaTable athena fuel tableName table (Some true) s)
    as [[cd trd] s1] eqn:D.
  pose proof (delete_submitted athena _ _ _ _ _ _ _ _ D) as D1.
  destruct cd as [v0|e|e| |]; try discriminate.
  destruct (source_text files table) as [e|text]; [discriminate|].
  destruct (startQueryExecution athena (create_params table text) s1)
    as [[e|id] s2]; [discriminate|].
  destruct (waitForAthenaQuery athena fuel id s2) as [[cw trw] s3] eqn:W.
  injection H as _ <- _.
  rewrite !submitted_app, Q1, D1, R1. simpl.
  now rewrite (wait_submits_nothing athena _ _ _ _ _ _ W).
Qed.

(** X12.  When [deleteAthenaTables] is fulfilled, one drop without IF
    EXISTS has been submitted for every table of the mapping and nothing
    else: the submitted queries are those drops, in the order the batch
    took the tables, which is a rearrangement of the mapping; and the last
    event is the log line of the success. *)
Theorem deleteAthenaTables_drops_every_table :
  forall (Svc : Type) (athena : Athena Svc) (fuel : nat)
         (tables : Js.object Table) (s : Svc) tr s',
    deleteAthenaTables athena fuel tables s = (Fulfilled tt, tr, s') ->
    submitted tr = map (fun entry => drop_params false (snd entry)) (map_order tables) /\
    Permutation (submitted tr)
                (map (fun entry => drop_params false (snd entry)) tables) /\
    length (submitted tr) = length tables /\
    last tr (EvLog "") = EvLog msg_deleted.
Proof.
  intros Svc athena fuel tables s tr s' H.
  rewrite deleteAthenaTables_run in H.
  destruct (drainQueue (delete_entry athena fuel) (map_order tables) s)
    as [[c1 tr1] s1] eqn:R.
  destruct c1 as [u|e|e| |]; try discriminate.
  injection H as <- <-.
  apply drainQueue_fulfilled in R.
  apply (Completed_submitted (delete_entry athena fuel)
           (fun entry => [drop_params false (snd entry)])) in R.
  2:{ intros item s0 v tr0 s0' D. exact (delete_submitted athena _ _ _ _ _ _ _ _ D). }
  assert (submitted (tr1 ++ [EvLog "Athena tables deleted successfully."]) =
          map (fun entry => drop_params false (snd entry)) (map_order tables)) as E.
  { rewrite submitted_app, R. simpl. rewrite app_nil_r.
    generalize (map_order tables). intros l.
    induction l as [|x l IH]; [reflexivity | simpl; now rewrite IH]. }
  assert (Permutation (map_order tables) tables) as P.
  { destruct tables as [|first others]; [constructor|].
    simpl. constructor. apply Permutation_sym, Permutation_rev. }
  split; [exact E | split; [| split]].
  - rewrite E. now apply Permutation_map.
  - rewrite E, length_map. now apply Permutation_length.
  - apply last_last.
Qed.

Lemma deleteAthenaTables_drops_every_table_witness :
  Permutation
    (submitted (snd (fst (deleteAthenaTables scripted 5 three_tables
       (mkScript [inr "q-1"; inr "q-2"; inr "q-3"]
          (states ["SUCCEEDED"; "SUCCEEDED"; "SUCCEEDED"]))))))
    (map (fun entry => drop_params false (snd entry)) three_tables).
Proof.
  apply (deleteAthenaTables_drops_every_table Script scripted 5 three_tables
           (mkScript [inr "q-1"; inr "q-2"; inr "q-3"]
              (states ["SUCCEEDED"; "SUCCEEDED"; "SUCCEEDED"]))
           _ (mkScript [] [])).
  reflexivity.
Defined.

(** X13.  When [createAthenaTables] is fulfilled, every definition of the
    mapping is valid and its DDL text was there, and for each table, in
    the order the batch took them, exactly two queries have been
    submitted: the drop with IF EXISTS and then the create with the
    resolved text; twice as many queries as tables in all. *)
Theorem createAthenaTables_creates_every_table :
  forall (Svc : Type) (athena : Athena Svc) (files : Files) (fuel : nat)
         (tables : Js.object Table) (s : Svc) tr s',
    createAthenaTables athena files fuel tables s = (Fulfilled tt, tr, s') ->
    Forall (fun entry =>
              valid (snd entry) = true /\
              exists text, source_text files (snd entry) = inr text) tables /\
    submitted tr = flat_map (creation_queries files) (map_order tables) /\
    length (submitted tr) = 2 * length tables /\
    last tr (EvLog "") = EvLog msg_created.
Proof.
  intros Svc athena files fuel tables s tr s' H.
  rewrite createAthenaTables_run in H.
  destruct (drainQueue (create_entry athena files fuel) (map_order tables) s)
    as [[c1 tr1] s1] eqn:R.
  destruct c1 as [u|e|e| |]; try discriminate.
  injection H as <- <-.
  apply drainQueue_fulfilled in R.
  assert (Forall (fun entry =>
                    valid (snd entry) = true /\
                    length (creation_queries files entry) = 2)
                 (map_order tables)) as F.
  { clear - R. induction R as [s | item rest s v tr1 s1 tr2 s2 H _ IH];
      constructor; [|exact IH].
    pose proof H as H'.
    apply create_fulfilled_submitted in H as [V E]. split; [exact V|].
    unfold create_entry in H'. destruct item as [tableName table].
    cbn [fst snd] in *.
    rewrite (create_run athena files _ _ _ _ V) in H'.
    unfold creation_queries. cbn [snd].
    destruct (deleteAthenaTable athena fuel tableName table (Some true) s)
      as [[cd trd] s0].
    destruct cd; try discriminate.
    destruct (source_text files table); [discriminate | reflexivity]. }
  apply (Completed_submitted (create_entry athena files fuel)
           (creation_queries files)) in R.
  2:{ intros item s0 v tr0 s0' C.
      now apply create_fulfilled_submitted in C as [_ C]. }
  assert (submitted (tr1 ++ [EvLog "Athena tables created successfully."]) =
          flat_map (creation_queries files) (map_order tables)) as E
    by (rewrite submitted_app, R; simpl; now rewrite app_nil_r).
  assert (forall l : list (string * Table),
            Forall (fun entry =>
                      valid (snd entry) = true /\
                      length (creation_queries files entry) = 2) l ->
            length (flat_map (creation_queries files) l) = 2 * length l) as L.
  { induction 1 as [|x l [_ Hx] _ IH]; [reflexivity|].
    simpl flat_map. rewrite length_app, Hx, IH. simpl. lia. }
  split; [| split; [exact E | split]].
  - apply Forall_forall. intros entry I.
    rewrite Forall_forall in F. apply map_order_In in I.
    destruct (F entry I) as [V Q]. split; [exact V|].
    unfold creation_queries in Q.
    destruct (source_text files (snd entry)) as [e|text];
      [discriminate | now exists text].
  - rewrite E, (L _ F). f_equal.
    destruct tables as [|first others]; [reflexivity|].
    simpl. now rewrite length_rev.
  - apply last_last.
Qed.

Lemma createAthenaTables_creates_every_table_witness :
  length (submitted (snd (fst (createAthenaTables scripted no_files 5 three_tables
     (mkScript [inr "q-1"; inr "q-2"; inr "q-3"; inr "q-4"; inr "q-5"; inr "q-6"]
        (states ["SUCCEEDED"; "SUCCEEDED"; "SUCCEEDED"; "SUCCEEDED";
                 "SUCCEEDED"; "SUCCEEDED"])))))) =
  2 * length three_tables.
Proof.
  apply (createAthenaTables_creates_every_table Script scripted no_files 5
           three_tables
           (mkScript [inr "q-1"; inr "q-2"; inr "q-3"; inr "q-4"; inr "q-5"; inr "q-6"]
              (states ["SUCCEEDED"; "SUCCEEDED"; "SUCCEEDED"; "SUCCEEDED";
                       "SUCCEEDED"; "SUCCEEDED"]))
           _ (mkScript [] [])).
  reflexivity.
Defined.

(** X14.  The line of success of a batch is logged exactly when the batch
    is fulfilled: a batch that was rejected, or has not settled, has not
    logged it, and no other line of a batch reads the same. *)
Theorem batch_success_logged_iff_fulfilled :
  forall (Svc : Type) (athena : Athena Svc) (files : Files) (fuel : nat)
         (tables : Js.object Table) (s : Svc),
    (forall c tr s',
       createAthenaTables athena files fuel tables s = (c, tr, s') ->
       (In (EvLog "Athena tables created successfully.") tr <-> c = Fulfilled tt)) /\
    (forall c tr s',
       deleteAthenaTables athena fuel tables s = (c, tr, s') ->
       (In (EvLog "Athena tables deleted successfully.") tr <-> c = Fulfilled tt)).
Proof.
  intros Svc athena files fuel tables s. split.
  - intros c tr s' H. rewrite createAthenaTables_run in H.
    destruct (drainQueue (create_entry athena files fuel) (map_order tables) s)
      as [[c1 tr1] s1] eqn:R.
    assert (~ In (EvLog "Athena tables created successfully.") tr1) as N.
    { rewrite logged_In. intros I.
      pose proof (drainQueue_logged (create_entry athena files fuel)
                    (fun msg => forall rest, msg <> String "A" rest)
                    (map_order tables)
                    (fun item s0 c0 tr0 s0' E =>
                       create_logged athena files _ _ _ _ _ _ _ E)
                    _ _ _ _ R) as F.
      rewrite Forall_forall in F. exact (F _ I _ eq_refl). }
    destruct c1 as [u|e|e| |]; injection H as <- <- <-;
      try (split; [intros I; now elim N | discriminate]).
    split; [reflexivity|]. intros _. apply in_or_app. right. now left.
  - intros c tr s' H. rewrite deleteAthenaTables_run in H.
    destruct (drainQueue (delete_entry athena fuel) (map_order tables) s)
      as [[c1 tr1] s1] eqn:R.
    assert (~ In (EvLog "Athena tables deleted successfully.") tr1) as N.
    { rewrite logged_In. intros I.
      pose proof (drainQueue_logged (delete_entry athena fuel)
                    (fun msg => forall rest, msg <> String "A" rest)
                    (map_order tables)
                    (fun item s0 c0 tr0 s0' E =>
                       delete_logged_lines athena _ _ _ _ _ _ _ _ E)
                    _ _ _ _ R) as F.
      rewrite Forall_forall in F. exact (F _ I _ eq_refl). }
    destruct c1 as [u|e|e| |]; injection H as <- <- <-;
      try (split; [intros I; now elim N | discriminate]).
    split; [reflexivity|]. intros _. apply in_or_app. right. now left.
Qed.

Lemma batch_success_logged_iff_fulfilled_witness :
  (In (EvLog "Athena tables deleted successfully.")
      (snd (fst (deleteAthenaTables scripted 5 three_tables third_refused))) <->
   Rejected (AwsError "InvalidRequestException") = Fulfilled tt) /\
  (In (EvLog "Athena tables created successfully.")
      (snd (fst (createAthenaTables scripted no_files 5
                   [("a", inline_table "ta" "CREATE EXTERNAL TABLE ta")]
                   (mkScript [inr "q-1"; inr "q-2"]
                      (states ["SUCCEEDED"; "SUCCEEDED"]))))) <->
   Fulfilled tt = Fulfilled tt).
Proof.
  split.
  - destruct (batch_success_logged_iff_fulfilled Script scripted no_files 5
                three_tables third_refused) as (_ & H).
    apply (H (Rejected (AwsError "InvalidRequestException")) _ (mkScript [] [])).
    reflexivity.
  - destruct (batch_success_logged_iff_fulfilled Script scripted no_files 5
                [("a", inline_table "ta" "CREATE EXTERNAL TABLE ta")]
                (mkScript [inr "q-1"; inr "q-2"] (states ["SUCCEEDED"; "SUCCEEDED"])))
      as (H & _).
    apply (H (Fulfilled tt) _ (mkScript [] [])). reflexivity.
Defined.

(** ** [shim] *)

Lemma array_set_middle {A : Type} (l1 l2 : list (option A)) (x : option A) (v : A) :
  array_set (l1 ++ x :: l2) (length l1) v = (l1 ++ Some v :: l2)%list.
Proof.
  induction l1 as [|y l1 IH]; simpl; [reflexivity | now rewrite IH].
Qed.

Lemma repeat_last {A : Type} (a : A) (n : nat) (l : list A) :
  (repeat a (S n) ++ l)%list = (repeat a n ++ a :: l)%list.
Proof.
  induction n as [|n IH]; [reflexivity|].
  change (repeat a (S (S n))) with (a :: repeat a (S n)).
  cbn [app]. rewrite IH. reflexivity.
Qed.

Lemma skipn_nth_error {A : Type} (l : list A) :
  forall i x, nth_error l i = Some x -> skipn i l = x :: skipn (S i) l.
Proof.
  induction l as [|y l IH]; intros [|i] x H; simpl in H; try discriminate.
  - now injection H as ->.
  - exact (IH i x H).
Qed.

(** The loop, from any index down: the slots below the index are holes
    and the others hold the entries of their keys. *)
Lemma shim_loop_fills {A : Type} (obj : Js.object A) (ownProps : list string) :
  forall i,
    i <= length ownProps ->
    shim_loop obj ownProps i
      (repeat None i
       ++ map (fun key => Some (Some key, Js.get obj key)) (skipn i ownProps)) =
    map (fun key => Some (Some key, Js.get obj key)) ownProps.
Proof.
  induction i as [|i IH]; intros L; [reflexivity|].
  destruct (nth_error ownProps i) as [key|] eqn:N.
  2:{ apply nth_error_None in N. lia. }
  cbn [shim_loop]. rewrite N. cbn [Js.tmpl].
  rewrite <- (IH (Nat.lt_le_incl _ _ L)), (skipn_nth_error _ _ _ N).
  f_equal. rewrite repeat_last. cbn [map].
  pose proof (array_set_middle (repeat None i)
                (map (fun key0 => Some (Some key0, Js.get obj key0))
                     (skipn (S i) ownProps))
                None (Some key, Js.get obj key)) as M.
  rewrite repeat_length in M. exact M.
Qed.

Lemma get_own {A : Type} (obj : Js.object A) :
  NoDup (Js.Object_keys obj) ->
  forall key v, In (key, v) obj -> Js.get obj key = Some v.
Proof.
  induction obj as [|[k x] obj IH]; intros D key v I; [now elim I|].
  simpl in *. inversion D as [|? ? Hk D']. subst.
  destruct I as [[= -> ->] | I].
  - now rewrite String.eqb_refl.
  - destruct (String.eqb_spec k key) as [-> | _].
    + elim Hk. change key with (fst (key, v)). now apply in_map.
    + now apply IH.
Qed.

(** X15.  The [Object.entries] that [shim] installs gives, for every
    object, an array as long as the object has keys, with no hole, that
    holds each key with the value the object has under it, in the order of
    [Object.keys]; for an object, whose keys are distinct, these are its
    entries as the native [Object.entries] gives them. *)
Theorem shim_entries_are_entries :
  forall (A : Type) (obj : Js.object A),
    shim_entries obj =
      map (fun key => Some (Some key, Js.get obj key)) (Js.Object_keys obj) /\
    length (shim_entries obj) = length (Js.Object_keys obj) /\
    (NoDup (Js.Object_keys obj) ->
     shim_entries obj =
     map (fun entry => Some (Some (fst entry), Some (snd entry)))
         (Js.Object_entries obj)).
Proof.
  intros A obj.
  assert (shim_entries obj =
          map (fun key => Some (Some key, Js.get obj key)) (Js.Object_keys obj))
    as E.
  { unfold shim_entries.
    rewrite <- (shim_loop_fills obj (Js.Object_keys obj)
                  (length (Js.Object_keys obj)) (le_n _)).
    now rewrite skipn_all, app_nil_r. }
  split; [exact E | split].
  - now rewrite E, length_map.
  - intros D. rewrite E. unfold Js.Object_keys, Js.Object_entries.
    rewrite map_map. apply map_ext_in. intros [key v] I. cbn [fst snd].
    now rewrite (get_own obj D key v I).
Qed.

Lemma shim_entries_are_entries_witness :
  shim_entries three_tables =
  map (fun entry => Some (Some (fst entry), Some (snd entry)))
      (Js.Object_entries three_tables).
Proof.
  apply (shim_entries_are_entries Table three_tables).
  unfold three_tables, Js.Object_keys. simpl.
  repeat constructor; simpl; intuition discriminate.
Defined.

(** ** More on substitutions *)

Lemma append_empty_r (a : string) : a ++ "" = a.
Proof.
  induction a as [|x a IH]; simpl; [reflexivity | now rewrite IH].
Qed.

(** X16.  What the patterns do in the value of a substitution, at the
    leftmost occurrence of the placeholder: [$$] puts one dollar there,
    [$&] the placeholder itself, so that the text stays as it was, [$`]
    the text before the placeholder and [$'] the text after it. *)
Theorem substitute_patterns :
  forall (ddl token before after : string),
    ddl = before ++ ("{" ++ token ++ "}") ++ after ->
    (forall before' after',
       ddl = before' ++ ("{" ++ token ++ "}") ++ after' ->
       String.length before <= String.length before') ->
    substitute [(token, "$$")] ddl = before ++ "$" ++ after /\
    substitute [(token, "$&")] ddl = ddl /\
    substitute [(token, "$`")] ddl = before ++ before ++ after /\
    substitute [(token, "$'")] ddl = before ++ after ++ after.
Proof.
  intros ddl token before after E L.
  unfold substitute, Js.Object_entries. cbn [fold_left fst snd].
  unfold Js.replace. rewrite (split_first_complete _ _ _ _ E L).
  cbn [Js.GetSubstitution Ascii.eqb Bool.eqb]. cbn.
  rewrite !append_empty_r. repeat split. now rewrite E.
Qed.

Lemma substitute_patterns_witness :
  substitute [("Loc", "$$")] "LOCATION '{Loc}'" = "LOCATION '" ++ "$" ++ "'" /\
  substitute [("Loc", "$&")] "LOCATION '{Loc}'" = "LOCATION '{Loc}'" /\
  substitute [("Loc", "$`")] "LOCATION '{Loc}'" = "LOCATION '" ++ "LOCATION '" ++ "'" /\
  substitute [("Loc", "$'")] "LOCATION '{Loc}'" = "LOCATION '" ++ "'" ++ "'".
Proof.
  apply (substitute_patterns "LOCATION '{Loc}'" "Loc" "LOCATION '" "'").
  - reflexivity.
  - intros before' after' E.
    do 10 (destruct before' as [|? before']; [discriminate E|];
           simpl in E; injection E as _ E).
    simpl. lia.
Defined.

(** ** Commands and hooks *)

(** X17.  A command given no table does to the service what the hook of
    the same kind does: [deployAthenaTablesDeploy] and
    [createAthenaTablesGlobal] make the same remote calls, leave the
    service in the same state and are fulfilled together, and so do
    [removeAthenaTablesRemove] and [deleteAthenaTablesGlobal]; they differ
    in their log lines only. *)
Theorem command_without_table_does_as_hook :
  forall (Svc : Type) (athena : Athena Svc) (files : Files) (fuel : nat)
         (this : Plugin) (s : Svc),
    Js.truthy (options_table this) = false ->
    (remote_calls (snd (fst (deployAthenaTablesDeploy athena files this fuel s))) =
       remote_calls (snd (fst (createAthenaTablesGlobal athena files this fuel s))) /\
     snd (deployAthenaTablesDeploy athena files this fuel s) =
       snd (createAthenaTablesGlobal athena files this fuel s) /\
     fulfilled (fst (fst (deployAthenaTablesDeploy athena files this fuel s))) =
       fulfilled (fst (fst (createAthenaTablesGlobal athena files this fuel s)))) /\
    (remote_calls (snd (fst (removeAthenaTablesRemove athena this fuel s))) =
       remote_calls (snd (fst (deleteAthenaTablesGlobal athena this fuel s))) /\
     snd (removeAthenaTablesRemove athena this fuel s) =
       snd (deleteAthenaTablesGlobal athena this fuel s) /\
     fulfilled (fst (fst (removeAthenaTablesRemove athena this fuel s))) =
       fulfilled (fst (fst (deleteAthenaTablesGlobal athena this fuel s)))).
Proof.
  intros Svc athena files fuel this s O.
  unfold deployAthenaTablesDeploy, removeAthenaTablesRemove,
    createAthenaTablesGlobal, deleteAthenaTablesGlobal.
  rewrite O.
  destruct (0 <? length (Js.Object_keys (getAthenaTables this)))%nat.
  - unfold bind, returning, log, emit. split.
    + destruct (createAthenaTables athena files fuel (getAthenaTables this) s)
        as [[c tr] s1]. now destruct c.
    + destruct (deleteAthenaTables athena fuel (getAthenaTables this) s)
        as [[c tr] s1]. now destruct c.
  - split; now repeat split.
Qed.

Lemma command_without_table_does_as_hook_witness :
  remote_calls
    (snd (fst (removeAthenaTablesRemove scripted
                 (mkPlugin (Some three_tables) None) 5 third_refused))) =
  remote_calls
    (snd (fst (deleteAthenaTablesGlobal scripted
                 (mkPlugin (Some three_tables) None) 5 third_refused))).
Proof.
  apply (command_without_table_does_as_hook Script scripted no_files 5
           (mkPlugin (Some three_tables) None) third_refused).
  reflexivity.
Defined.
